(** * virapy: lazy extension loader and submodule proxies

    A shallow embedding of [source/virapy/packaging/__init__.py]: the
    module initialisation (DLL search path on Windows), the cached,
    identity-swapping extension loader [_load_extension], and the lazy
    proxy class [_LazySubmodule] behind [V1FF], [V8FF] and [RGBFF].

    Python state is passed explicitly through a state-and-exception
    monad.  Everything on the far side of the Python source (the file
    system, the import system, [importlib], the compiled extension) is
    a field of a [Runtime] record over which all theorems quantify. *)

From Stdlib Require Import Ascii DecimalString DecimalN DecimalFacts DecimalPos.
From stdpp Require Import base strings gmap list.


(** ** Python values, exceptions, results *)

(** A Python reference: [None], or an object known by its identity. *)
Inductive value :=
| PyNone
| PyObj (id : positive).

#[global] Instance value_eq_dec : EqDecision value.
Proof. solve_decision. Defined.

(** [x is not None] *)
Definition is_not_None (v : value) : bool :=
  match v with PyNone => false | PyObj _ => true end.

(** An instance of [Exception]: its class name and its [str()].
    Exits that are no [Exception] ([KeyboardInterrupt], [SystemExit])
    are outside this model; every [exn] is caught by [except Exception]. *)
Record exn := Exn { exn_type : string; exn_str : string }.

#[global] Instance exn_eq_dec : EqDecision exn.
Proof. solve_decision. Defined.

(** [repr] of a [str] holding no quote, backslash or control
    character, which is what a dotted module name is. *)
Definition py_repr (s : string) : string := "'" +:+ s +:+ "'".

Definition ImportError (msg : string) : exn := Exn "ImportError" msg.
(** [str(KeyError(k))] is [repr(k)]. *)
Definition KeyError (key : string) : exn := Exn "KeyError" (py_repr key).

Inductive result (A : Type) :=
| Ok (a : A)
| Raise (e : exn).
Arguments Ok {A} a.
Arguments Raise {A} e.

(** ** The monad: state [S], result or raised exception *)

Definition M (S A : Type) : Type := S → result A * S.

#[global] Instance M_ret {S} : MRet (M S) := λ A a s, (Ok a, s).

#[global] Instance M_bind {S} : MBind (M S) := λ A B f m s,
  match m s with
  | (Ok a, s') => f a s'
  | (Raise e, s') => (Raise e, s')
  end.

Definition raise {S A} (e : exn) : M S A := λ s, (Raise e, s).

(** [try: body except Exception as e: handler e] *)
Definition try_except {S A} (body : M S A) (handler : exn → M S A) : M S A :=
  λ s,
  match body s with
  | (Ok a, s') => (Ok a, s')
  | (Raise e, s') => handler e s'
  end.

(** [try: body finally: final]; [final] runs on every exit of [body],
    a [return] included, and an exception of its own would win. *)
Definition try_finally {S A} (body : M S A) (final : M S unit) : M S A :=
  λ s,
  match body s with
  | (r, s') =>
      match final s' with
      | (Ok _, s'') => (r, s'')
      | (Raise e, s'') => (Raise e, s'')
      end
  end.

(** ** The host and the world *)

(** What the module reads from its host when it is imported. *)
Record Host := {
  platform_system : string;            (* platform.system() *)
  has_add_dll_directory : bool;        (* hasattr(os, 'add_dll_directory') *)
  os_pathsep : string;                 (* os.pathsep *)
  os_path_join : string → string → string;  (* os.path.join *)
  __name__ : string;                   (* the wrapper's module name *)
  _package_dir : string;               (* dirname(abspath(__file__)) *)
}.

(** [importlib.machinery.ModuleSpec], as far as the loader looks at it. *)
Record ModuleSpec := { loader : option positive }.

(** Calls that leave the Python source, in the order they are made. *)
Inductive Event :=
| EvPathExists (path : string)
| EvImport (modname : string)
| EvSpecFromFileLocation (modname path : string)
| EvModuleFromSpec (spec : ModuleSpec)
| EvExecModule (ld module : positive)
| EvGetattr (o : value) (attr : string)
| EvCallMethod (o : value) (meth : string)
| EvDir (o : value).

#[global] Instance ModuleSpec_eq_dec : EqDecision ModuleSpec.
Proof. solve_decision. Defined.
#[global] Instance Event_eq_dec : EqDecision Event.
Proof. solve_decision. Defined.

(** Code outside the source sees and may change the module registry
    [sys.modules] and its own hidden state [N].  This holds of the
    import system as well: an [import] statement may bind names in the
    registry, and may raise. *)
Definition Native (N A : Type) : Type :=
  gmap string value * N → result A * (gmap string value * N).

Record Runtime (N : Type) := {
  py_import : string → Native N unit;   (* the statement [import modname] *)
  spec_from_file_location : string → string → Native N (option ModuleSpec);
  module_from_spec : ModuleSpec → Native N positive;
  exec_module : positive → positive → Native N unit;
  py_getattr : value → string → Native N value;
  py_call_method : value → string → Native N value;
  py_dir : value → Native N (list string);
}.
Arguments py_import {N} _ _ _.
Arguments spec_from_file_location {N} _ _ _ _.
Arguments module_from_spec {N} _ _ _.
Arguments exec_module {N} _ _ _ _.
Arguments py_getattr {N} _ _ _ _.
Arguments py_call_method {N} _ _ _ _.
Arguments py_dir {N} _ _ _.

Record World (N : Type) := mkWorld {
  sys_modules : gmap string value;     (* sys.modules *)
  native : N;                          (* state of the native side *)
  _extension_module : value;           (* the module global *)
  files : gset string;                 (* paths that exist *)
  dll_directories : list string;       (* os.add_dll_directory entries *)
  environ : gmap string string;        (* os.environ *)
  trace : list Event;                  (* calls made so far, oldest first *)
}.
Arguments mkWorld {N} _ _ _ _ _ _ _.
Arguments sys_modules {N} _.
Arguments native {N} _.
Arguments _extension_module {N} _.
Arguments files {N} _.
Arguments dll_directories {N} _.
Arguments environ {N} _.
Arguments trace {N} _.

Section World_ops.
Context {N : Type}.
Implicit Types w : World N.

Definition with_sys_modules (m : gmap string value) w : World N :=
  mkWorld m (native w) (_extension_module w) (files w)
          (dll_directories w) (environ w) (trace w).

Definition with_extension_module (v : value) w : World N :=
  mkWorld (sys_modules w) (native w) v (files w)
          (dll_directories w) (environ w) (trace w).

Definition with_files (fs : gset string) w : World N :=
  mkWorld (sys_modules w) (native w) (_extension_module w) fs
          (dll_directories w) (environ w) (trace w).

Definition with_dll_directories (ds : list string) w : World N :=
  mkWorld (sys_modules w) (native w) (_extension_module w) (files w)
          ds (environ w) (trace w).

Definition with_environ (env : gmap string string) w : World N :=
  mkWorld (sys_modules w) (native w) (_extension_module w) (files w)
          (dll_directories w) env (trace w).

Definition with_trace (t : list Event) w : World N :=
  mkWorld (sys_modules w) (native w) (_extension_module w) (files w)
          (dll_directories w) (environ w) t.

(** One call across the boundary: logged, then run on the registry
    and the native state. *)
Definition call_native {A} (ev : Event) (f : Native N A) : M (World N) A :=
  λ w,
  match f (sys_modules w, native w) with
  | (r, (m, n)) =>
      (r, mkWorld m n (_extension_module w) (files w)
                  (dll_directories w) (environ w) (trace w ++ [ev]))
  end.

(** [os.path.exists(path)] *)
Definition os_path_exists (path : string) : M (World N) bool :=
  λ w,
  (Ok (bool_decide (path ∈ files w)),
   mkWorld (sys_modules w) (native w) (_extension_module w) (files w)
           (dll_directories w) (environ w) (trace w ++ [EvPathExists path])).

(** [sys.modules[key]] *)
Definition sys_modules_getitem (key : string) : M (World N) value :=
  λ w,
  match sys_modules w !! key with
  | Some v => (Ok v, w)
  | None => (Raise (KeyError key), w)
  end.

(** [sys.modules[key] = v] *)
Definition sys_modules_setitem (key : string) (v : value) : M (World N) unit :=
  λ w, (Ok tt, with_sys_modules (<[key := v]> (sys_modules w)) w).

(** [key in sys.modules] *)
Definition sys_modules_contains (key : string) : M (World N) bool :=
  λ w, (Ok (bool_decide (is_Some (sys_modules w !! key))), w).

(** [del sys.modules[key]] *)
Definition sys_modules_delitem (key : string) : M (World N) unit :=
  λ w,
  match sys_modules w !! key with
  | Some _ => (Ok tt, with_sys_modules (delete key (sys_modules w)) w)
  | None => (Raise (KeyError key), w)
  end.

Definition get_extension_module : M (World N) value :=
  λ w, (Ok (_extension_module w), w).

Definition set_extension_module (v : value) : M (World N) unit :=
  λ w, (Ok tt, with_extension_module v w).

(** [os.add_dll_directory(d)] *)
Definition os_add_dll_directory (d : string) : M (World N) unit :=
  λ w, (Ok tt, with_dll_directories (dll_directories w ++ [d]) w).

(** [os.environ.get(key, dflt)] *)
Definition environ_get (key dflt : string) : M (World N) string :=
  λ w, (Ok (default dflt (environ w !! key)), w).

(** [os.environ[key] = v] *)
Definition environ_setitem (key v : string) : M (World N) unit :=
  λ w, (Ok tt, with_environ (<[key := v]> (environ w)) w).
End World_ops.

(** ** The extension loader *)

Section Loader.
Context {N : Type} (host : Host) (rt : Runtime N).

(** Lines 37-40: the file the loader looks for. *)
Definition extension_file : string :=
  if String.eqb (platform_system host) "Windows"
  then os_path_join host (_package_dir host) "virapy.pyd"
  else os_path_join host (_package_dir host) "virapy.so".

(** Line 52. *)
Definition temp_name : string := __name__ host +:+ "_temp".

(** Lines 59-66: the body of the inner [try]. *)
Definition load_under_own_name : M (World N) value :=
  spec ← call_native
            (EvSpecFromFileLocation (__name__ host) extension_file)
            (spec_from_file_location rt (__name__ host) extension_file);
  match spec with
  | Some sp =>
      match loader sp with
      | Some ld =>
          extension_module ←
            call_native (EvModuleFromSpec sp) (module_from_spec rt sp);
          call_native (EvExecModule ld extension_module)
                      (exec_module rt ld extension_module);;
          set_extension_module (PyObj extension_module);;
          mret (PyObj extension_module)
      | None =>
          raise (ImportError ("Could not create spec for " +:+ extension_file))
      end
  | None =>
      raise (ImportError ("Could not create spec for " +:+ extension_file))
  end.

(** Lines 69-72: the [finally] block. *)
Definition restore_identity (this_module : value) : M (World N) unit :=
  sys_modules_setitem (__name__ host) this_module;;
  present ← sys_modules_contains temp_name;
  if (present : bool) then sys_modules_delitem temp_name else mret tt.

(** Line 46: [import importlib.util].  The statement runs on every
    call that finds the file; what it binds in [sys.modules] when the
    module was not imported before, and whether it raises, is the
    import system's. *)
Definition import_importlib_util : M (World N) unit :=
  call_native (EvImport "importlib.util") (py_import rt "importlib.util").

(** Lines 36-72: the body of the outer [try]. *)
Definition locate_and_load : M (World N) value :=
  found ← os_path_exists extension_file;
  if negb found
  then raise (ImportError ("Extension file not found: " +:+ extension_file))
  else
    import_importlib_util;;
    this_module ← sys_modules_getitem (__name__ host);
    sys_modules_setitem temp_name this_module;;
    present ← sys_modules_contains (__name__ host);
    (if (present : bool) then sys_modules_delitem (__name__ host) else mret tt);;
    try_finally load_under_own_name (restore_identity this_module).

(** Lines 28-75. *)
Definition _load_extension : M (World N) value :=
  cached ← get_extension_module;
  if is_not_None cached
  then mret cached
  else
    try_except locate_and_load
      (λ e, raise (ImportError
                     ("Failed to import virapy extension: " +:+ exn_str e))).
End Loader.

(** ** The lazy submodule proxy *)

(** The instance attributes of a [_LazySubmodule]. *)
Record _LazySubmodule := mkLazy {
  name : string;
  _submodule : value;
  _activated : bool;
}.

#[global] Instance _LazySubmodule_eq_dec : EqDecision _LazySubmodule.
Proof. solve_decision. Defined.

(** Lines 79-82. *)
Definition __init__ {S} (name : string) : M S _LazySubmodule :=
  mret (mkLazy name PyNone false).

Section Proxy.
Context {N : Type} (host : Host) (rt : Runtime N).

(** A method runs on its [self] and the world; both survive a raise. *)
Definition Method (A : Type) : Type := M (_LazySubmodule * World N) A.

Definition in_world {A} (m : M (World N) A) : Method A :=
  λ s,
  match m s.2 with
  | (r, w') => (r, (s.1, w'))
  end.

Definition get_self : Method _LazySubmodule := λ s, (Ok s.1, s).

Definition set_submodule (v : value) : Method unit :=
  λ s, (Ok tt, (mkLazy (name s.1) v (_activated s.1), s.2)).

Definition set_activated (b : bool) : Method unit :=
  λ s, (Ok tt, (mkLazy (name s.1) (_submodule s.1) b, s.2)).

(** Line 88: [getattr(o, attr)] *)
Definition getattr (o : value) (attr : string) : M (World N) value :=
  call_native (EvGetattr o attr) (py_getattr rt o attr).

(** Line 90: [o._activate()] *)
Definition call_activate (o : value) : M (World N) value :=
  call_native (EvCallMethod o "_activate") (py_call_method rt o "_activate").

(** Line 99: [dir(o)] *)
Definition dir (o : value) : M (World N) (list string) :=
  call_native (EvDir o) (py_dir rt o).

(** Lines 84-91. *)
Definition _ensure_activated : Method unit :=
  self ← get_self;
  if negb (_activated self)
  then
    extension ← in_world (_load_extension host rt);
    submodule ← in_world (getattr extension (name self));
    set_submodule submodule;;
    self ← get_self;
    in_world (call_activate (_submodule self));;
    set_activated true
  else mret tt.

(** Lines 93-95. *)
Definition __getattr__ (attr : string) : Method value :=
  _ensure_activated;;
  self ← get_self;
  in_world (getattr (_submodule self) attr).

(** Lines 97-99. *)
Definition __dir__ : Method (list string) :=
  _ensure_activated;;
  self ← get_self;
  in_world (dir (_submodule self)).

(** ** Module initialisation *)

(** The module's public names, lines 102-104. *)
Record Exports := mkExports {
  V1FF : _LazySubmodule;
  V8FF : _LazySubmodule;
  RGBFF : _LazySubmodule;
}.

(** Lines 19-23. *)
Definition register_dll_directory : M (World N) unit :=
  if String.eqb (platform_system host) "Windows"
  then
    if has_add_dll_directory host
    then os_add_dll_directory (_package_dir host)
    else
      old ← environ_get "PATH" "";
      environ_setitem "PATH" (_package_dir host +:+ os_pathsep host +:+ old)
  else mret tt.

(** The module body, top to bottom: lines 19-26 and 102-104. *)
Definition module_init : M (World N) Exports :=
  register_dll_directory;;
  set_extension_module PyNone;;
  v1 ← __init__ "V1FF";
  v8 ← __init__ "V8FF";
  rgb ← __init__ "RGBFF";
  mret (mkExports v1 v8 rgb).
End Proxy.

(** ** Callers and observations *)

(** Line 75: what the outer handler raises for the error [e]. *)
Definition wrap_failure (e : exn) : exn :=
  ImportError ("Failed to import virapy extension: " +:+ exn_str e).

(** A caller that calls [m] [n] times in a row and keeps every outcome,
    raised or returned. *)
Fixpoint run_calls {S A} (m : M S A) (n : nat) (s : S) : list (result A) * S :=
  match n with
  | O => ([], s)
  | Datatypes.S k =>
      match m s with
      | (r, s') =>
          match run_calls m k s' with
          | (rs, s'') => (r :: rs, s'')
          end
      end
  end.

Definition is_exec_module (ev : Event) : bool :=
  match ev with EvExecModule _ _ => true | _ => false end.

Definition is_activate (ev : Event) : bool :=
  match ev with
  | EvCallMethod _ meth => String.eqb meth "_activate"
  | _ => false
  end.

(** Native-load events: executions of the extension module. *)
Definition native_loads (t : list Event) : nat :=
  length (List.filter is_exec_module t).

(** Invocations of the activation entry point. *)
Definition activations (t : list Event) : nat :=
  length (List.filter is_activate t).

(** One use of a proxy from outside: an attribute that is not the
    proxy's own (Python then calls [__getattr__]), or [dir()]. *)
Inductive Use :=
| UseGetattr (attr : string)
| UseDir.

Section Uses.
Context {N : Type} (host : Host) (rt : Runtime N).

(** The outcome of a use, without its value. *)
Definition use (u : Use) : Method (N := N) unit :=
  match u with
  | UseGetattr attr => __getattr__ host rt attr;; mret tt
  | UseDir => __dir__ host rt;; mret tt
  end.

(** A caller that makes the uses one after the other and carries on
    after a raise. *)
Fixpoint run_uses (us : list Use) (s : _LazySubmodule * World N)
  : _LazySubmodule * World N :=
  match us with
  | [] => s
  | u :: us' => run_uses us' (use u s).2
  end.

(** The world once the extension file was found, line 42. *)
Definition probed (w : World N) : World N :=
  with_trace (trace w ++ [EvPathExists (extension_file host)]) w.

(** Line 46 run after the file was found: its outcome, and the world
    it leaves. *)
Definition imported (w : World N) : result unit * World N :=
  import_importlib_util rt (probed w).

(** Lines 52-55 done on a world: the wrapper sits under the alias and
    its own name is free. *)
Definition swapped (this_module : value) (w : World N) : World N :=
  with_sys_modules
    (delete (__name__ host)
            (<[temp_name host := this_module]> (sys_modules w)))
    w.

(** The exception [cause] came out of the import system, [importlib]
    or the extension. *)
Definition raised_by_runtime (cause : exn) : Prop :=
  ∃ st st',
    py_import rt "importlib.util" st = (Raise cause, st')
    ∨ spec_from_file_location rt (__name__ host) (extension_file host) st
      = (Raise cause, st')
    ∨ (∃ sp, module_from_spec rt sp st = (Raise cause, st'))
    ∨ (∃ ld mo, exec_module rt ld mo st = (Raise cause, st')).

(** The call gets as far as line 46: nothing is cached and the file is
    there. *)
Definition reaches_import (w : World N) : bool :=
  negb (is_not_None (_extension_module w))
  && bool_decide (extension_file host ∈ files w).

(** The call gets as far as the identity swap: line 46 returned and the
    wrapper is bound under its name. *)
Definition reaches_swap (w : World N) : bool :=
  reaches_import w
  && match (imported w).1 with
     | Ok _ =>
         bool_decide (is_Some (sys_modules (imported w).2 !! __name__ host))
     | Raise _ => false
     end.

(** The world that line 46 leaves, or the world itself when the call
    does not get that far. *)
Definition past_import (w : World N) : World N :=
  if reaches_import w then (imported w).2 else w.

(** The import system and [importlib] load the file at [path] as
    [modname], whatever the state they are asked in: line 46 returns
    and leaves the entry of [modname] alone, and the three calls of
    lines 59-62 return a module. *)
Definition importable (modname path : string) : Prop :=
  (∀ st, ∃ st',
     py_import rt "importlib.util" st = (Ok tt, st')
     ∧ st'.1 !! modname = st.1 !! modname)
  ∧ ∀ st, ∃ sp ld st1 mo st2 st3,
      spec_from_file_location rt modname path st = (Ok (Some sp), st1)
      ∧ loader sp = Some ld
      ∧ module_from_spec rt sp st1 = (Ok mo, st2)
      ∧ exec_module rt ld mo st2 = (Ok tt, st3).
End Uses.

(** ** Sample hosts and runtimes *)

Definition posix_host : Host := {|
  platform_system := "Linux";
  has_add_dll_directory := false;
  os_pathsep := ":";
  os_path_join := λ a b, a +:+ "/" +:+ b;
  __name__ := "virapy";
  _package_dir := "/site-packages/virapy";
|}.

Definition windows_host (add_dll : bool) : Host := {|
  platform_system := "Windows";
  has_add_dll_directory := add_dll;
  os_pathsep := ";";
  os_path_join := λ a b, a +:+ "\" +:+ b;
  __name__ := "virapy";
  _package_dir := "C:\site-packages\virapy";
|}.

(** The sample extension: module object 10 with the three variants as
    objects 11, 12, 13, each with one attribute [render]. *)
Definition variant_of (o : value) : option string :=
  match o with
  | PyObj 11 => Some "V1FF"
  | PyObj 12 => Some "V8FF"
  | PyObj 13 => Some "RGBFF"
  | _ => None
  end.

Definition AttributeError (attr : string) : exn :=
  Exn "AttributeError" ("object has no attribute " +:+ py_repr attr).

Definition sample_getattr (o : value) (attr : string) : Native (option string) value :=
  λ st,
  match o with
  | PyObj 10 =>
      if String.eqb attr "V1FF" then (Ok (PyObj 11), st)
      else if String.eqb attr "V8FF" then (Ok (PyObj 12), st)
      else if String.eqb attr "RGBFF" then (Ok (PyObj 13), st)
      else (Raise (AttributeError attr), st)
  | PyObj 11 => if String.eqb attr "render" then (Ok (PyObj 21), st)
                else (Raise (AttributeError attr), st)
  | PyObj 12 => if String.eqb attr "render" then (Ok (PyObj 22), st)
                else (Raise (AttributeError attr), st)
  | PyObj 13 => if String.eqb attr "render" then (Ok (PyObj 23), st)
                else (Raise (AttributeError attr), st)
  | _ => (Raise (AttributeError attr), st)
  end.

(** The sample extension's arbiter, after section 4.5 of the spec:
    [activate(name)] is accepted when no variant or this one is
    current, and rejected with the current one otherwise; the hidden
    state is the current variant. *)
Definition arbiter_activate (requested : string) (current : option string)
  : result value * option string :=
  match current with
  | None => (Ok PyNone, Some requested)
  | Some act =>
      if String.eqb act requested
      then (Ok PyNone, current)
      else (Raise (Exn "RuntimeError"
                       ("cannot activate " +:+ requested +:+ ": "
                        +:+ act +:+ " is active")),
            current)
  end.

Definition sample_call_method (o : value) (meth : string)
  : Native (option string) value :=
  λ st,
  match variant_of o with
  | Some v =>
      if String.eqb meth "_activate"
      then
        match arbiter_activate v st.2 with
        | (r, cur) => (r, (st.1, cur))
        end
      else (Raise (AttributeError meth), st)
  | None => (Raise (AttributeError meth), st)
  end.

(** What [import importlib.util] adds to the registry of a CPython 3.11
    process that has imported [os], [sys] and [platform] only. *)
Definition importlib_util_modules : gmap string value :=
  list_to_map
    [("importlib", PyObj 31); ("importlib._bootstrap", PyObj 32);
     ("importlib._bootstrap_external", PyObj 33); ("warnings", PyObj 34);
     ("contextlib", PyObj 35); ("importlib._abc", PyObj 36);
     ("importlib.util", PyObj 37)].

(** The sample import system knows [importlib.util] only.  Modules that
    are in the registry already stay as they are and the missing ones
    are added. *)
Definition sample_import (modname : string) : Native (option string) unit :=
  λ st,
  if String.eqb modname "importlib.util"
  then (Ok tt, (st.1 ∪ importlib_util_modules, st.2))
  else
    (Raise (Exn "ModuleNotFoundError" ("No module named " +:+ py_repr modname)),
     st).

(** Executing the sample extension registers it under its own name, as
    a native module initialiser may. *)
Definition sample_rt : Runtime (option string) := {|
  py_import := sample_import;
  spec_from_file_location := λ _ _ st, (Ok (Some {| loader := Some 1%positive |}), st);
  module_from_spec := λ _ st, (Ok 10%positive, st);
  exec_module := λ _ mo st, (Ok tt, (<["virapy" := PyObj mo]> st.1, st.2));
  py_getattr := sample_getattr;
  py_call_method := sample_call_method;
  py_dir := λ _ st, (Ok ["render"], st);
|}.

(** The same extension, but its execution fails after it registered
    itself. *)
Definition corrupt_rt : Runtime (option string) := {|
  py_import := sample_import;
  spec_from_file_location := spec_from_file_location sample_rt;
  module_from_spec := module_from_spec sample_rt;
  exec_module := λ _ mo st,
    (Raise (Exn "ImportError" "DLL load failed"),
     (<["virapy" := PyObj mo]> st.1, st.2));
  py_getattr := sample_getattr;
  py_call_method := sample_call_method;
  py_dir := py_dir sample_rt;
|}.

(** The sample extension in a process where [importlib.util] cannot be
    imported, as when [None] sits under that name in the registry. *)
Definition no_importlib_rt : Runtime (option string) := {|
  py_import := λ _ st,
    (Raise (Exn "ModuleNotFoundError"
                "import of importlib.util halted; None in sys.modules"),
     st);
  spec_from_file_location := spec_from_file_location sample_rt;
  module_from_spec := module_from_spec sample_rt;
  exec_module := exec_module sample_rt;
  py_getattr := sample_getattr;
  py_call_method := sample_call_method;
  py_dir := py_dir sample_rt;
|}.

(** An extension that loads but exposes no variant. *)
Definition bare_rt : Runtime (option string) := {|
  py_import := sample_import;
  spec_from_file_location := spec_from_file_location sample_rt;
  module_from_spec := module_from_spec sample_rt;
  exec_module := exec_module sample_rt;
  py_getattr := λ _ attr st, (Raise (AttributeError attr), st);
  py_call_method := sample_call_method;
  py_dir := py_dir sample_rt;
|}.

(** A process right after [import virapy] on the POSIX host, with the
    extension file in place. *)
Definition fresh_world : World (option string) :=
  mkWorld (<["virapy" := PyObj 1]> ∅) None PyNone
          ({["/site-packages/virapy/virapy.so"]}) [] ∅ [].

(** The same process with the extension file deleted. *)
Definition no_file_world : World (option string) := with_files ∅ fresh_world.

(** The fresh process after [V8FF.render] was read: the extension is
    loaded and the arbiter holds V8FF. *)
Definition v8_active_world : World (option string) :=
  (__getattr__ posix_host sample_rt "render"
     (mkLazy "V8FF" PyNone false, fresh_world)).2.2.

(** ** Further observations on the loader *)

(** The calls into [importlib] and the extension leave [sys.modules] as
    they found it. *)
Definition registry_neutral {N} (rt : Runtime N) : Prop :=
  (∀ modname path st, (spec_from_file_location rt modname path st).2.1 = st.1)
  ∧ (∀ sp st, (module_from_spec rt sp st).2.1 = st.1)
  ∧ (∀ ld mo st, (exec_module rt ld mo st).2.1 = st.1).

(** The sample extension, executing without touching the registry. *)
Definition quiet_rt : Runtime (option string) := {|
  py_import := sample_import;
  spec_from_file_location := spec_from_file_location sample_rt;
  module_from_spec := module_from_spec sample_rt;
  exec_module := λ _ _ st, (Ok tt, st);
  py_getattr := sample_getattr;
  py_call_method := sample_call_method;
  py_dir := py_dir sample_rt;
|}.

(** ** The example script: frame names *)

(** [k] characters '0'. *)
Fixpoint zeros (k : nat) : string :=
  match k with
  | O => ""
  | S k' => String "0"%char (zeros k')
  end.

(** [str(n)] for an [int] [n >= 0]: its decimal digits. *)
Definition py_str_N (n : N) : string :=
  NilEmpty.string_of_uint (N.to_uint n).

(** [str(z)] for an [int]. *)
Definition py_str_Z (z : Z) : string :=
  if (z <? 0)%Z then "-" +:+ py_str_N (Z.abs_N z) else py_str_N (Z.abs_N z).

(** What of the interpreter the formatting of an [int] depends on.  A
    digit limit is 0 (no limit, as in interpreters that have none) or at
    least 640: [sys.set_int_max_str_digits] takes nothing else. *)
Record Interpreter := {
  int_max_str_digits : N;   (* sys.get_int_max_str_digits() *)
  maxsize : N;              (* sys.maxsize *)
  max_str_len : N;          (* the longest str the process can allocate *)
}.

Definition ValueError (msg : string) : exn := Exn "ValueError" msg.
Definition MemoryError : exn := Exn "MemoryError" "".

(** The number of decimal digits of [z], its sign not counted. *)
Definition digit_count (z : Z) : N :=
  N.of_nat (String.length (py_str_N (Z.abs_N z))).

(** The conversion of [z] to decimal digits is refused: there is a
    limit and [z] has more digits. *)
Definition exceeds_digit_limit (py : Interpreter) (z : Z) : bool :=
  (0 <? int_max_str_digits py)%N && (int_max_str_digits py <? digit_count z)%N.

(** The error of a refused conversion, in the words of CPython 3.11. *)
Definition digit_limit_error (py : Interpreter) : exn :=
  ValueError
    ("Exceeds the limit (" +:+ py_str_N (int_max_str_digits py)
     +:+ " digits) for integer string conversion; "
     +:+ "use sys.set_int_max_str_digits() to increase the limit").

(** The text of [format(number, "0<width>d")] for a width [>= 0].  The
    zero padding is sign-aware: a minus sign comes first and counts in
    the width; a number that needs more than the width is not cut. *)
Definition zero_padded (number : Z) (width : nat) : string :=
  let digits := py_str_N (Z.abs_N number) in
  if (number <? 0)%Z
  then "-" +:+ zeros (width - 1 - String.length digits) +:+ digits
  else zeros (width - String.length digits) +:+ digits.

(** The length of that text. *)
Definition padded_length (number width : Z) : N :=
  N.max (Z.to_N width) ((if (number <? 0)%Z then 1 else 0) + digit_count number).

(** Lines 15-17 of [pyvira_orex.py]: [f"{number:0{width}d}"] for an
    [int] number and a width of class [int] itself, not a [bool] (the
    default width is 3).  Python formats the inner field
    [{width}] first, which is [str(width)]; then it parses the format
    specification "0<width>d", where a minus sign is no width and a
    width above [sys.maxsize] is refused; then it converts the number
    to digits; then it builds the padded text, a [MemoryError] when the
    process cannot allocate one that long.  The first three steps raise
    [ValueError], in the words of CPython 3.11. *)
Definition pad_zeros (py : Interpreter) (number width : Z) : result string :=
  if exceeds_digit_limit py width
  then Raise (digit_limit_error py)
  else if (width <? 0)%Z
  then Raise (ValueError ("Invalid format specifier '0" +:+ py_str_Z width
                          +:+ "d' for object of type 'int'"))
  else if (maxsize py <? Z.to_N width)%N
  then Raise (ValueError "Too many decimal digits in format string")
  else if exceeds_digit_limit py number
  then Raise (digit_limit_error py)
  else if (max_str_len py <? padded_length number width)%N
  then Raise MemoryError
  else Ok (zero_padded number (Z.to_nat width)).


(** A 64-bit CPython 3.11 as it starts, in a process that can allocate
    texts of up to 4 GiB. *)
Definition cpython_3_11 : Interpreter := {|
  int_max_str_digits := 4300;
  maxsize := 9223372036854775807;
  max_str_len := 4294967296;
|}.

(** The same after [sys.set_int_max_str_digits(640)]. *)
Definition cpython_limit_640 : Interpreter := {|
  int_max_str_digits := 640;
  maxsize := 9223372036854775807;
  max_str_len := 4294967296;
|}.

(** ** The example script: [main] *)

(** [pathlib], as far as the script uses it; a path is known by its
    [str()]. *)
Record Pathlib := {
  path_of_string : string → string;          (* str(Path(s)) *)
  path_parent : string → string;             (* str(p.parent) *)
  path_truediv : string → string → string;   (* str(p / s) *)
}.

(** The process running the script: its arguments, its two output
    streams (one entry per [print]), and the world of the imported
    wrapper, file system included. *)
Record Process (N : Type) := mkProcess {
  argv : list string;
  stderr : list string;
  stdout : list string;
  virapy : World N;
}.
Arguments mkProcess {N} _ _ _ _.
Arguments argv {N} _.
Arguments stderr {N} _.
Arguments stdout {N} _.
Arguments virapy {N} _.

(** The names bound in the wrapper module once its body has run: those
    the import system sets, the three imports, and the assignments,
    definitions and class of lines 10-107; [_version] is bound as well
    when the import of line 11 found that submodule. *)
Definition wrapper_namespace (version_imported : bool) : list string :=
  ["__name__"; "__doc__"; "__package__"; "__loader__"; "__spec__";
   "__path__"; "__file__"; "__cached__"; "__builtins__";
   "os"; "sys"; "platform"; "__version__"; "_package_dir";
   "_extension_module"; "_load_extension"; "_LazySubmodule";
   "V1FF"; "V8FF"; "RGBFF"; "__all__"]
  ++ (if version_imported then ["_version"] else []).

Section Script.
Context {N : Type} (host : Host) (pathlib : Pathlib).
(** Whether [virapy._version] was imported, and the objects behind the
    wrapper's names. *)
Context (version_imported : bool) (wrapper_member : string → value).
(** Calling an object, and lines 56-162 of the script, which work on the
    scene: both belong to the extension. *)
Context (call_object : value → M (Process N) value).
Context (render_frames : value → string → string → M (Process N) unit).

(** [print(msg, file=sys.stderr)] *)
Definition print_stderr (msg : string) : M (Process N) unit :=
  λ s, (Ok tt, mkProcess (argv s) (stderr s ++ [msg]) (stdout s) (virapy s)).

(** [print(msg)] *)
Definition print_stdout (msg : string) : M (Process N) unit :=
  λ s, (Ok tt, mkProcess (argv s) (stderr s) (stdout s ++ [msg]) (virapy s)).

(** [p.exists()] *)
Definition path_exists (p : string) : M (Process N) bool :=
  λ s, (Ok (bool_decide (p ∈ files (virapy s))), s).

(** [vira.<attr>]: a name of the wrapper module, which defines no
    module-level [__getattr__]. *)
Definition vira_getattr (attr : string) : M (Process N) value :=
  if bool_decide (attr ∈ wrapper_namespace version_imported)
  then mret (wrapper_member attr)
  else raise (Exn "AttributeError"
                  ("module '" +:+ __name__ host
                   +:+ "' has no attribute '" +:+ attr +:+ "'")).

(** Lines 39-40: where the script looks for the Bennu DSK file. *)
Definition bennu_path_of (filepath : string) : string :=
  path_truediv pathlib
    (path_truediv pathlib (path_parent pathlib filepath)
       "../../data/kernels/bennu/dsk")
    "bennu_g_01680mm_alt_obj_0000n00000_v021.bds".

(** Lines 9-13. *)
Definition enable_print_status : M (Process N) unit := mret tt.

(** Lines 19-23. *)
Definition velocity_to_rgb (velocity_image : value) : value := velocity_image.

(** Lines 50-162: the body of the [try]. *)
Definition render (filepath bennu_path : string) : M (Process N) unit :=
  enable_print_status;;
  scene_class ← vira_getattr "Scene";
  scene ← call_object scene_class;
  render_frames scene filepath bennu_path.

(** Lines 25-168. *)
Definition main : M (Process N) Z :=
  args ← (λ s, (Ok (argv s), s));
  match args with
  | [_; arg] =>
      let filepath := path_of_string pathlib arg in
      found ← path_exists filepath;
      if negb found
      then
        print_stderr ("The meta_kernel.tm does not exist at: " +:+ filepath);;
        mret 2%Z
      else
        let dsk_file_name := "bennu_g_01680mm_alt_obj_0000n00000_v021.bds" in
        let bennu_path := bennu_path_of filepath in
        found ← path_exists bennu_path;
        if negb found
        then
          print_stderr ("The " +:+ dsk_file_name +:+ " file does not exist at: "
                        +:+ bennu_path);;
          mret 2%Z
        else
          returned ←
            try_except (render filepath bennu_path;; mret None)
              (λ ex, print_stdout ("Error: " +:+ exn_str ex);; mret (Some 1%Z));
          match returned with
          | Some status => mret status
          | None => mret 0%Z
          end
  | _ =>
      print_stderr
        "This example requires passing the meta_kernel.tm filepath as an argument";;
      mret 1%Z
  end.
End Script.

(** A sample [pathlib] on the POSIX host: paths are kept as written and
    every path of the sample run lies in one directory. *)
Definition sample_pathlib : Pathlib := {|
  path_of_string := λ s, s;
  path_parent := λ _, "/orex";
  path_truediv := λ p s, p +:+ "/" +:+ s;
|}.

(** The script started on an existing meta kernel, with the DSK file in
    place, in the fresh process. *)
Definition sample_process : Process (option string) :=
  mkProcess ["pyvira_orex.py"; "/orex/meta_kernel.tm"] [] []
    (with_files
       ({["/site-packages/virapy/virapy.so"; "/orex/meta_kernel.tm";
          "/orex/../../data/kernels/bennu/dsk/bennu_g_01680mm_alt_obj_0000n00000_v021.bds"]})
       fresh_world).

(** ** The Conan recipe [ViraConan] *)

(** What the recipe's methods read and write of [self]: the OS and C++
    standard settings ([None] when [compiler.cppstd] is unset), the
    recipe's own options, the options of its dependencies, and the
    requirements declared so far. *)
Record ViraConan := mkViraConan {
  settings_os : string;
  settings_compiler_cppstd : option string;
  options : gmap string bool;
  dependency_options : gmap (string * string) bool;
  requires : list string;
}.

(** Lines 19-23. *)
Definition default_options : gmap string bool :=
  <["tests" := false]> (<["shared" := false]> (<["fPIC" := true]> ∅)).

(** Lines 28-43.  [rm_safe] removes an option when it is there and does
    nothing otherwise. *)
Definition configure (self : ViraConan) : ViraConan :=
  let self :=
    if String.eqb (settings_os self) "Windows"
    then
      mkViraConan (settings_os self) (settings_compiler_cppstd self)
        (delete "fPIC" (options self))
        (<[("gdal", "gdal_optional_drivers") := false]>
           (<[("gdal", "ogr_optional_drivers") := false]>
              (<[("gdal", "with_opencl") := false]>
                 (<[("gdal", "with_arrow") := false]>
                    (<[("gdal", "with_geos") := false]>
                       (<[("gdal", "with_curl") := false]>
                          (dependency_options self)))))))
        (requires self)
    else self in
  match settings_compiler_cppstd self with
  | Some _ =>
      mkViraConan (settings_os self) (Some "20") (options self)
        (dependency_options self) (requires self)
  | None => self
  end.

(** Lines 45-65. *)
Definition requirements (self : ViraConan) : ViraConan :=
  let core :=
    ["assimp/5.4.3"; "cfitsio/4.4.0"; "cspice/0067"; "embree3/3.13.5";
     "fftw/3.3.10"; "gdal/3.10.3"; "glm/1.0.1"; "indicators/2.3";
     "libtiff/4.6.0"; "lz4/1.9.4"; "plog/1.1.10"; "tclap/1.2.5";
     "termcolor/2.0.0"; "onetbb/[>=2021.0]"; "yaml-cpp/0.8.0"] in
  mkViraConan (settings_os self) (settings_compiler_cppstd self)
    (options self) (dependency_options self)
    (requires self ++ core
     ++ (if default false (options self !! "tests")
         then ["gtest/1.16.0"] else [])).

(** A recipe with the default options on the given OS. *)
Definition sample_recipe (os : string) (cppstd : option string) : ViraConan :=
  mkViraConan os cppstd default_options ∅ [].

(** * Properties *)

(** ** Basic facts *)

Ltac unfold_monad :=
  unfold try_except, try_finally, raise, mbind, M_bind, mret, M_ret in *.

Ltac unfold_world_ops :=
  unfold call_native, os_path_exists, sys_modules_getitem,
    sys_modules_setitem, sys_modules_contains, sys_modules_delitem,
    get_extension_module, set_extension_module, os_add_dll_directory,
    environ_get, environ_setitem, with_sys_modules, with_extension_module,
    with_files, with_dll_directories, with_environ, with_trace in *.

(** Runs a monadic term symbolically, splitting on every test. *)
Ltac mstep :=
  first
    [ progress (unfold_monad; unfold_world_ops)
    | progress cbn in *
    | progress simplify_eq
    | case_bool_decide
    | case_match ].
Ltac mrun := repeat mstep.

Lemma append_ne (s t : string) : t ≠ "" → s ≠ s +:+ t.
Proof.
  intros Ht. induction s as [|a s IH]; simpl.
  - intros Heq. by subst.
  - intros Heq. injection Heq as Heq. by apply IH.
Qed.

Lemma name_ne_temp (host : Host) : __name__ host ≠ temp_name host.
Proof. unfold temp_name. by apply append_ne. Qed.

Section Loader_facts.
Context {N : Type} (host : Host) (rt : Runtime N).
Implicit Types w : World N.

(** A cached handle is returned at once and nothing else happens. *)
Lemma load_cached w :
  is_not_None (_extension_module w) = true →
  _load_extension host rt w = (Ok (_extension_module w), w).
Proof.
  intros Hc. unfold _load_extension, get_extension_module.
  unfold mbind, M_bind. by rewrite Hc.
Qed.

Lemma load_uncached w :
  is_not_None (_extension_module w) = false →
  _load_extension host rt w =
  match locate_and_load host rt w with
  | (Ok a, w') => (Ok a, w')
  | (Raise e, w') => (Raise (wrap_failure e), w')
  end.
Proof.
  intros Hc. unfold _load_extension, get_extension_module.
  unfold mbind, M_bind. rewrite Hc. reflexivity.
Qed.

(** The [finally] block never raises; it rebinds the name and drops the
    alias. *)
Lemma restore_identity_run (this_module : value) w :
  restore_identity host this_module w =
  (Ok tt,
   with_sys_modules
     (delete (temp_name host) (<[__name__ host := this_module]> (sys_modules w))) w).
Proof.
  unfold restore_identity. mrun; try done.
  all: do 2 f_equal; symmetry; apply delete_id; by apply eq_None_not_Some.
Qed.

Lemma locate_missing w :
  extension_file host ∉ files w →
  locate_and_load host rt w =
  (Raise (ImportError ("Extension file not found: " +:+ extension_file host)),
   with_trace (trace w ++ [EvPathExists (extension_file host)]) w).
Proof.
  intros Hf. unfold locate_and_load.
  unfold mbind at 1. unfold M_bind, os_path_exists.
  by rewrite bool_decide_eq_false_2.
Qed.

(** Line 46 is logged after the probe of the file; beyond the trace it
    can change the registry and the native state only. *)
Lemma imported_frame w :
  _extension_module (imported host rt w).2 = _extension_module w
  ∧ files (imported host rt w).2 = files w
  ∧ dll_directories (imported host rt w).2 = dll_directories w
  ∧ environ (imported host rt w).2 = environ w
  ∧ trace (imported host rt w).2
    = trace w ++ [EvPathExists (extension_file host); EvImport "importlib.util"]
  ∧ sys_modules (imported host rt w).2
    = (py_import rt "importlib.util" (sys_modules w, native w)).2.1
  ∧ (imported host rt w).1
    = (py_import rt "importlib.util" (sys_modules w, native w)).1.
Proof.
  unfold imported, import_importlib_util, probed, call_native, with_trace. cbn.
  destruct (py_import rt "importlib.util" (sys_modules w, native w))
    as [r [m n]]. cbn. by rewrite <- List.app_assoc.
Qed.

(** A call that finds the file runs line 46, and goes on to the swap
    when that returns and the wrapper is bound under its name. *)
Lemma locate_found w :
  extension_file host ∈ files w →
  locate_and_load host rt w =
  match imported host rt w with
  | (Raise cause, w1) => (Raise cause, w1)
  | (Ok _, w1) =>
      match sys_modules w1 !! __name__ host with
      | None => (Raise (KeyError (__name__ host)), w1)
      | Some this_module =>
          try_finally (load_under_own_name host rt)
            (restore_identity host this_module) (swapped host this_module w1)
      end
  end.
Proof.
  intros Hf. unfold locate_and_load.
  unfold mbind at 1. unfold M_bind, os_path_exists.
  rewrite bool_decide_eq_true_2 by done. cbn.
  unfold mbind at 1. unfold M_bind.
  change (import_importlib_util rt _) with (imported host rt w).
  destruct (imported host rt w) as [[[]|cause] w1]; [|done].
  unfold mbind at 1. unfold M_bind, sys_modules_getitem.
  destruct (sys_modules w1 !! __name__ host) as [this_module|] eqn:Hn; [|done].
  unfold mbind at 1. unfold M_bind, sys_modules_setitem at 1. cbn.
  unfold mbind at 1. unfold M_bind, sys_modules_contains at 1. cbn.
  rewrite bool_decide_eq_true_2; last first.
  { rewrite lookup_insert_ne by (symmetry; apply name_ne_temp). by rewrite Hn. }
  unfold mbind at 1. unfold M_bind, sys_modules_delitem at 1. cbn.
  rewrite lookup_insert_ne by (symmetry; apply name_ne_temp). rewrite Hn.
  reflexivity.
Qed.

(** What a successful import under the wrapper's name leaves behind. *)
Lemma own_name_success w h w' :
  load_under_own_name host rt w = (Ok h, w') →
  ∃ sp ld mo,
    h = PyObj mo
    ∧ _extension_module w' = PyObj mo
    ∧ trace w' = (trace w ++ [EvSpecFromFileLocation (__name__ host)
                                                     (extension_file host);
                              EvModuleFromSpec sp; EvExecModule ld mo])%list
    ∧ files w' = files w
    ∧ dll_directories w' = dll_directories w
    ∧ environ w' = environ w.
Proof.
  unfold load_under_own_name. intros Hrun. mrun.
  eexists _, _, _. rewrite <- !(assoc_L (++)). done.
Qed.

(** A failed import caches nothing, and its error is the wrapper's own
    "no spec" error or one the runtime raised. *)
Lemma own_name_failure w cause w' :
  load_under_own_name host rt w = (Raise cause, w') →
  _extension_module w' = _extension_module w
  ∧ files w' = files w
  ∧ dll_directories w' = dll_directories w
  ∧ environ w' = environ w
  ∧ native_loads (trace w') ≤ native_loads (trace w) + 1
  ∧ activations (trace w') = activations (trace w)
  ∧ (cause = ImportError ("Could not create spec for " +:+ extension_file host)
     ∨ raised_by_runtime host rt cause).
Proof.
  unfold load_under_own_name, raised_by_runtime, native_loads, activations.
  intros Hrun. mrun; rewrite ?List.filter_app, ?length_app; cbn;
    repeat split; try done; try lia; eauto 10.
Qed.


(** The [finally] block lets the outcome of the import through. *)
Lemma load_and_restore (this_module : value) w :
  try_finally (load_under_own_name host rt) (restore_identity host this_module) w =
  ((load_under_own_name host rt w).1,
   with_sys_modules
     (delete (temp_name host)
        (<[__name__ host := this_module]>
           (sys_modules (load_under_own_name host rt w).2)))
     (load_under_own_name host rt w).2).
Proof.
  unfold try_finally.
  destruct (load_under_own_name host rt w) as [r w1].
  by rewrite restore_identity_run.
Qed.

(** The four ways a call without a cached handle can go: the file is
    missing; line 46 raises; the wrapper's name is unbound; or the swap
    is made and the extension imported. *)
Lemma load_cases w :
  ((extension_file host ∉ files w)
   ∧ locate_and_load host rt w =
     (Raise (ImportError ("Extension file not found: " +:+ extension_file host)),
      with_trace (trace w ++ [EvPathExists (extension_file host)]) w))
  ∨ (∃ cause w1,
       extension_file host ∈ files w
       ∧ imported host rt w = (Raise cause, w1)
       ∧ locate_and_load host rt w = (Raise cause, w1))
  ∨ (∃ w1,
       extension_file host ∈ files w
       ∧ imported host rt w = (Ok tt, w1)
       ∧ sys_modules w1 !! __name__ host = None
       ∧ locate_and_load host rt w = (Raise (KeyError (__name__ host)), w1))
  ∨ (∃ w1 this_module,
       extension_file host ∈ files w
       ∧ imported host rt w = (Ok tt, w1)
       ∧ sys_modules w1 !! __name__ host = Some this_module
       ∧ locate_and_load host rt w =
         try_finally (load_under_own_name host rt)
           (restore_identity host this_module) (swapped host this_module w1)).
Proof.
  destruct (decide (extension_file host ∈ files w)) as [Hf|Hf].
  - rewrite (locate_found w Hf).
    destruct (imported host rt w) as [[[]|cause] w1] eqn:Himp.
    + destruct (sys_modules w1 !! __name__ host) as [this_module|] eqn:Hn.
      * do 3 right. by exists w1, this_module.
      * right; right; left. by exists w1.
    + right; left. by exists cause, w1.
  - left. eauto using locate_missing.
Qed.

(** The world after line 46, as far as the counters and the frame go. *)
Lemma imported_counts w r w1 :
  imported host rt w = (r, w1) →
  _extension_module w1 = _extension_module w
  ∧ files w1 = files w
  ∧ dll_directories w1 = dll_directories w
  ∧ environ w1 = environ w
  ∧ native_loads (trace w1) = native_loads (trace w)
  ∧ activations (trace w1) = activations (trace w)
  ∧ trace w1
    = trace w ++ [EvPathExists (extension_file host); EvImport "importlib.util"].
Proof.
  intros Himp.
  destruct (imported_frame w) as (Hc & Hf & Hd & He & Ht & _).
  rewrite Himp in *. cbn in *. rewrite Ht.
  unfold native_loads, activations. rewrite !List.filter_app, !length_app.
  cbn. repeat split; try done; lia.
Qed.

Lemma native_loads_app (t1 t2 : list Event) :
  native_loads (t1 ++ t2) = native_loads t1 + native_loads t2.
Proof. unfold native_loads. by rewrite List.filter_app, length_app. Qed.

Lemma activations_app (t1 t2 : list Event) :
  activations (t1 ++ t2) = activations t1 + activations t2.
Proof. unfold activations. by rewrite List.filter_app, length_app. Qed.

(** A call that returns without a cached handle made exactly one
    native load and cached what it returns. *)
Lemma load_success_uncached w h w1 :
  is_not_None (_extension_module w) = false →
  _load_extension host rt w = (Ok h, w1) →
  ∃ mo, h = PyObj mo
        ∧ _extension_module w1 = PyObj mo
        ∧ native_loads (trace w1) = native_loads (trace w) + 1
        ∧ activations (trace w1) = activations (trace w)
        ∧ files w1 = files w
        ∧ dll_directories w1 = dll_directories w
        ∧ environ w1 = environ w.
Proof.
  intros Hc Hrun. rewrite load_uncached in Hrun by done.
  destruct (load_cases w)
    as [(Hf & Heq)|[(c & wi & Hf & Himp & Heq)
                   |[(wi & Hf & Himp & Hn & Heq)
                    |(wi & this_module & Hf & Himp & Hn & Heq)]]];
    rewrite Heq in Hrun; [done|done|done|].
  rewrite load_and_restore in Hrun.
  destruct (load_under_own_name host rt (swapped host this_module wi))
    as [[h'|c] w2] eqn:Hown; [|done].
  injection Hrun as <- <-.
  apply own_name_success in Hown
    as (sp & ld & mo & -> & Hcache & Htr & Hfi & Hdl & Hen).
  apply imported_counts in Himp as (_ & Hfi' & Hdl' & Hen' & Hl' & Ha' & _).
  exists mo. cbn [fst snd trace files dll_directories environ
                  _extension_module with_sys_modules swapped] in *.
  rewrite Htr, Hfi, Hdl, Hen.
  rewrite native_loads_app, activations_app, <- Hl', <- Ha'.
  cbn. repeat split; try done; lia.
Qed.

(** Any call that returns leaves its result in the cache. *)
Lemma load_success_cached w h w1 :
  _load_extension host rt w = (Ok h, w1) →
  is_not_None h = true ∧ _extension_module w1 = h.
Proof.
  intros Hrun. destruct (is_not_None (_extension_module w)) eqn:Hc.
  - rewrite load_cached in Hrun by done. by injection Hrun as <- <-.
  - destruct (load_success_uncached w h w1 Hc Hrun) as (mo & -> & Hcache & _).
    done.
Qed.

Lemma run_calls_cached (n : nat) w :
  is_not_None (_extension_module w) = true →
  run_calls (_load_extension host rt) n w
  = (replicate n (Ok (_extension_module w)), w).
Proof.
  intros Hc. induction n as [|n IH]; [done|].
  cbn. rewrite load_cached by done. by rewrite IH.
Qed.

(** With [importlib] willing, the import under the wrapper's name
    returns. *)
Lemma own_name_importable w :
  importable rt (__name__ host) (extension_file host) →
  ∃ mo w', load_under_own_name host rt w = (Ok (PyObj mo), w').
Proof.
  intros [_ Himp].
  destruct (Himp (sys_modules w, native w))
    as (sp & ld & [m1 n1] & mo & [m2 n2] & [m3 n3] & H1 & H2 & H3 & H4).
  exists mo. unfold load_under_own_name, call_native, set_extension_module.
  unfold_monad. cbn. rewrite H1. cbn. rewrite H2. cbn. rewrite H3. cbn.
  rewrite H4. cbn. by eexists.
Qed.

(** An exception of line 46 is the import system's. *)
Lemma imported_raise w cause w1 :
  imported host rt w = (Raise cause, w1) →
  raised_by_runtime host rt cause.
Proof.
  intros Himp.
  destruct (imported_frame w) as (_ & _ & _ & _ & _ & _ & Hres).
  rewrite Himp in Hres. cbn in Hres.
  exists (sys_modules w, native w),
         (py_import rt "importlib.util" (sys_modules w, native w)).2.
  left. destruct (py_import rt "importlib.util" (sys_modules w, native w)).
  cbn in *. by subst.
Qed.

(** With the import system willing, line 46 returns and the wrapper is
    still bound under its name. *)
Lemma imported_importable w (this_module : value) :
  importable rt (__name__ host) (extension_file host) →
  sys_modules w !! __name__ host = Some this_module →
  ∃ w1, imported host rt w = (Ok tt, w1)
        ∧ sys_modules w1 !! __name__ host = Some this_module.
Proof.
  intros [Himp _] Hn.
  destruct (Himp (sys_modules w, native w)) as ([m1 n1] & Hrun & Hkeep).
  destruct (imported_frame w) as (_ & _ & _ & _ & _ & Hsm & Hres).
  rewrite Hrun in Hsm, Hres. cbn in *.
  destruct (imported host rt w) as [r w1]. cbn in *. subst r.
  exists w1. split; [done|]. by rewrite Hsm, Hkeep.
Qed.

(** The loader leaves the search-path registration alone. *)
Lemma load_keeps_search_path w :
  dll_directories (_load_extension host rt w).2 = dll_directories w
  ∧ environ (_load_extension host rt w).2 = environ w
  ∧ files (_load_extension host rt w).2 = files w.
Proof.
  destruct (is_not_None (_extension_module w)) eqn:Hc.
  { by rewrite load_cached. }
  rewrite load_uncached by done.
  destruct (load_cases w)
    as [(Hf & ->)|[(c & wi & Hf & Himp & ->)
                  |[(wi & Hf & Himp & Hn & ->)
                   |(wi & this_module & Hf & Himp & Hn & ->)]]]; [done|..].
  1,2: by apply imported_counts in Himp as (_ & Hfi & Hdl & Hen & _).
  apply imported_counts in Himp as (_ & Hfi & Hdl & Hen & _).
  rewrite load_and_restore.
  destruct (load_under_own_name host rt (swapped host this_module wi))
    as [[h|c] w2] eqn:Hown; cbn.
  - apply own_name_success in Hown
      as (sp & ld & mo & _ & _ & _ & Hfi2 & Hdl2 & Hen2).
    cbn in *. by rewrite Hfi2, Hdl2, Hen2.
  - apply own_name_failure in Hown as (_ & Hfi2 & Hdl2 & Hen2 & _).
    cbn in *. by rewrite Hfi2, Hdl2, Hen2.
Qed.

(** The whole call, when it gets to the swap, in one equation. *)
Lemma load_through_swap w w1 (this_module : value) :
  is_not_None (_extension_module w) = false →
  extension_file host ∈ files w →
  imported host rt w = (Ok tt, w1) →
  sys_modules w1 !! __name__ host = Some this_module →
  _load_extension host rt w
  = (match (load_under_own_name host rt (swapped host this_module w1)).1 with
     | Ok h => Ok h
     | Raise cause => Raise (wrap_failure cause)
     end,
     with_sys_modules
       (delete (temp_name host)
          (<[__name__ host := this_module]>
             (sys_modules
                (load_under_own_name host rt (swapped host this_module w1)).2)))
       (load_under_own_name host rt (swapped host this_module w1)).2).
Proof.
  intros Hc Hf Himp Hn. rewrite load_uncached by done.
  rewrite (locate_found w Hf), Himp, Hn.
  rewrite load_and_restore.
  by destruct (load_under_own_name host rt (swapped host this_module w1))
    as [[h|c] w2].
Qed.

(** The registry a call leaves behind, path by path: untouched when the
    call ends before line 46, as line 46 left it when the call ends
    there or at line 49, and otherwise what the import of the extension
    left, with the wrapper put back and the alias dropped. *)
Lemma load_registry w :
  sys_modules (_load_extension host rt w).2
  = if reaches_import host w
    then
      if reaches_swap host rt w
      then
        delete (temp_name host)
          (<[__name__ host := default PyNone
                                (sys_modules (imported host rt w).2
                                   !! __name__ host)]>
             (sys_modules
                (load_under_own_name host rt
                   (swapped host
                      (default PyNone
                         (sys_modules (imported host rt w).2 !! __name__ host))
                      (imported host rt w).2)).2))
      else sys_modules (imported host rt w).2
    else sys_modules w.
Proof.
  unfold reaches_swap, reaches_import.
  destruct (is_not_None (_extension_module w)) eqn:Hc.
  { by rewrite load_cached. }
  rewrite load_uncached by done. cbn.
  destruct (load_cases w)
    as [(Hf & ->)|[(c & wi & Hf & Himp & ->)
                  |[(wi & Hf & Himp & Hn & ->)
                   |(wi & this_module & Hf & Himp & Hn & ->)]]].
  - by rewrite bool_decide_eq_false_2.
  - rewrite bool_decide_eq_true_2 by done. by rewrite Himp.
  - rewrite bool_decide_eq_true_2 by done. rewrite Himp. cbn. rewrite Hn.
    by rewrite bool_decide_eq_false_2 by (by intros [? ?]).
  - rewrite bool_decide_eq_true_2 by done. rewrite Himp. cbn. rewrite Hn.
    rewrite bool_decide_eq_true_2 by eauto. cbn.
    rewrite load_and_restore.
    by destruct (load_under_own_name host rt (swapped host this_module wi))
      as [[h|e] w2].
Qed.

End Loader_facts.

(** ** Identity restoration *)

(** C1.  Take a call in which line 46, [import importlib.util], when
    the call gets that far, leaves alone the registry entries of the
    wrapper's name and of the alias name (it binds the names of
    [importlib]'s modules).  After the call, returned or raised,
    [sys.modules[__name__]] is bound to the object it was bound to
    before the call (or is unbound as before), and no alias is leaked:
    when [__name__ + "_temp"] was not in the registry before the call
    it is not there afterwards.  A call that gets as far as the
    identity swap leaves no entry under the alias name, whatever was
    there before. *)
Theorem load_extension_restores_identity
  {N} (host : Host) (rt : Runtime N) (w : World N) :
  sys_modules (past_import host rt w) !! __name__ host
  = sys_modules w !! __name__ host →
  sys_modules (past_import host rt w) !! temp_name host
  = sys_modules w !! temp_name host →
  let w' := (_load_extension host rt w).2 in
  sys_modules w' !! __name__ host = sys_modules w !! __name__ host
  ∧ (sys_modules w !! temp_name host = None →
     sys_modules w' !! temp_name host = None)
  ∧ (reaches_swap host rt w = true →
     sys_modules w' !! temp_name host = None).
Proof.
  unfold past_import. intros Hname Htemp. cbn zeta.
  rewrite load_registry.
  destruct (reaches_swap host rt w) eqn:Hswap.
  - unfold reaches_swap in Hswap. apply andb_prop in Hswap as [Himp Hswap].
    rewrite Himp in *.
    rewrite lookup_delete_eq.
    rewrite lookup_delete_ne by (symmetry; apply name_ne_temp).
    rewrite lookup_insert_eq. split; [|done].
    destruct (imported host rt w).1; [|done].
    apply bool_decide_eq_true in Hswap as [v Hv].
    rewrite <- Hname, Hv. done.
  - destruct (reaches_import host w); [|done].
    rewrite Hname, Htemp. done.
Qed.

(** The sample extension registers itself under the wrapper's name
    while it executes; the call returns, and afterwards the wrapper
    (object 1) is back under "virapy" and nothing sits under
    "virapy_temp". *)
Lemma load_extension_restores_identity_witness :
  (_load_extension posix_host sample_rt fresh_world).1 = Ok (PyObj 10)
  ∧ sys_modules (_load_extension posix_host sample_rt fresh_world).2
      !! "virapy" = Some (PyObj 1)
  ∧ sys_modules (_load_extension posix_host sample_rt fresh_world).2
      !! "virapy_temp" = None.
Proof.
  destruct (load_extension_restores_identity posix_host sample_rt fresh_world)
    as (Hname & Halias & _).
  - vm_compute; reflexivity.
  - vm_compute; reflexivity.
  - split; [vm_compute; reflexivity|].
    split; [exact Hname | apply Halias; vm_compute; reflexivity].
Defined.

(** The sample extension fails while it executes, after registering
    itself under the wrapper's name: the call raises, the wrapper is
    back under its name, no alias is left, and what line 46 imported
    stays in the registry. *)
Example load_restores_after_native_failure :
  (_load_extension posix_host corrupt_rt fresh_world).1
  = Raise (ImportError "Failed to import virapy extension: DLL load failed")
  ∧ sys_modules (_load_extension posix_host corrupt_rt fresh_world).2
    = <["virapy" := PyObj 1]> importlib_util_modules
  ∧ _extension_module (_load_extension posix_host corrupt_rt fresh_world).2
    = PyNone.
Proof. repeat split; vm_compute; reflexivity. Qed.

(** [importlib.util] cannot be imported: line 46 raises, the error is
    wrapped like any other, and the registry is not touched. *)
Example import_failure_is_wrapped :
  _load_extension posix_host no_importlib_rt fresh_world
  = (Raise (ImportError
              "Failed to import virapy extension: import of importlib.util halted; None in sys.modules"),
     with_trace [EvPathExists "/site-packages/virapy/virapy.so";
                 EvImport "importlib.util"] fresh_world).
Proof. vm_compute; reflexivity. Qed.

(** ** Failure wrapping *)

(** C9.  Whenever [_load_extension] raises, what it raises is one
    [ImportError] whose message is "Failed to import virapy extension: "
    followed by [str()] of the error that left the outer [try]: the
    missing-file or no-spec [ImportError] of the wrapper itself (so the
    missing-file text is wrapped a second time), the [KeyError] of an
    unbound wrapper name, or whatever the import system, [importlib] or
    the extension raised.  The class is [ImportError] in every case. *)
Theorem load_extension_failure_is_wrapped
  {N} (host : Host) (rt : Runtime N) (w : World N) (e : exn) (w' : World N) :
  _load_extension host rt w = (Raise e, w') →
  exn_type e = "ImportError"
  ∧ ∃ cause,
      locate_and_load host rt w = (Raise cause, w')
      ∧ e = ImportError ("Failed to import virapy extension: " +:+ exn_str cause)
      ∧ (((extension_file host ∉ files w)
          ∧ e = ImportError
                  ("Failed to import virapy extension: "
                   +:+ "Extension file not found: " +:+ extension_file host))
         ∨ cause = KeyError (__name__ host)
         ∨ cause = ImportError ("Could not create spec for " +:+ extension_file host)
         ∨ raised_by_runtime host rt cause).
Proof.
  intros Hrun.
  destruct (is_not_None (_extension_module w)) eqn:Hc.
  { by rewrite load_cached in Hrun. }
  rewrite load_uncached in Hrun by done.
  destruct (locate_and_load host rt w) as [[h|cause] w1] eqn:Hbody; [done|].
  injection Hrun as <- <-. split; [done|].
  exists cause. split; [done|]. split; [done|].
  destruct (load_cases host rt w)
    as [(Hf & Heq)|[(c & wi & Hf & Himp & Heq)
                   |[(wi & Hf & Himp & Hn & Heq)
                    |(wi & this_module & Hf & Himp & Hn & Heq)]]];
    rewrite Heq in Hbody.
  - injection Hbody as <- _. by left.
  - injection Hbody as <- _. do 3 right. by eapply imported_raise.
  - injection Hbody as <- _. right; by left.
  - rewrite load_and_restore in Hbody.
    destruct (load_under_own_name host rt (swapped host this_module wi))
      as [[h|c] w2] eqn:Hown; [done|].
    injection Hbody as <- _.
    apply own_name_failure in Hown as (_ & _ & _ & _ & _ & _ & [->|Hrt]).
    + right; right; by left.
    + by do 3 right.
Qed.

(** The extension file is gone: the message carries the path twice
    wrapped, under class [ImportError]. *)
Lemma load_extension_failure_is_wrapped_witness :
  _load_extension posix_host sample_rt no_file_world
  = (Raise (ImportError
              "Failed to import virapy extension: Extension file not found: /site-packages/virapy/virapy.so"),
     with_trace [EvPathExists "/site-packages/virapy/virapy.so"] no_file_world)
  ∧ exn_type (ImportError
                "Failed to import virapy extension: Extension file not found: /site-packages/virapy/virapy.so")
    = "ImportError".
Proof.
  assert (Hrun :
    _load_extension posix_host sample_rt no_file_world
    = (Raise (ImportError
                "Failed to import virapy extension: Extension file not found: /site-packages/virapy/virapy.so"),
       with_trace [EvPathExists "/site-packages/virapy/virapy.so"] no_file_world))
    by reflexivity.
  split; [exact Hrun|].
  exact (proj1 (load_extension_failure_is_wrapped
                  posix_host sample_rt no_file_world _ _ Hrun)).
Defined.

(** ** Idempotent load *)

(** C2.  From a state with no cached handle, once a first call has
    returned a handle, [n >= 1] calls in a row all return that handle,
    the whole sequence made exactly one native load, the handle is what
    the cache holds, and a further call returns it again and changes
    nothing: no path is probed and no module executed. *)
Theorem load_extension_idempotent
  {N} (host : Host) (rt : Runtime N) (w : World N) (h : value)
  (w1 : World N) (n : nat) :
  _extension_module w = PyNone →
  _load_extension host rt w = (Ok h, w1) →
  1 ≤ n →
  run_calls (_load_extension host rt) n w = (replicate n (Ok h), w1)
  ∧ native_loads (trace w1) = native_loads (trace w) + 1
  ∧ _extension_module w1 = h
  ∧ _load_extension host rt w1 = (Ok h, w1).
Proof.
  intros Hnone Hrun Hn.
  assert (Hc : is_not_None (_extension_module w) = false) by by rewrite Hnone.
  destruct (load_success_uncached host rt w h w1 Hc Hrun)
    as (mo & -> & Hcache & Hloads & _).
  destruct n as [|n]; [lia|].
  split; [|split; [done|split; [done|]]].
  - cbn. rewrite Hrun. rewrite run_calls_cached by by rewrite Hcache.
    by rewrite Hcache.
  - rewrite load_cached by by rewrite Hcache. by rewrite Hcache.
Qed.

(** Three calls in a fresh process: one native load, one handle. *)
Lemma load_extension_idempotent_witness :
  run_calls (_load_extension posix_host sample_rt) 3 fresh_world
  = ([Ok (PyObj 10); Ok (PyObj 10); Ok (PyObj 10)],
     (_load_extension posix_host sample_rt fresh_world).2)
  ∧ native_loads (trace (_load_extension posix_host sample_rt fresh_world).2) = 1.
Proof.
  destruct (load_extension_idempotent posix_host sample_rt fresh_world
              (PyObj 10) (_load_extension posix_host sample_rt fresh_world).2 3)
    as (Hcalls & Hloads & _);
    [reflexivity | vm_compute; reflexivity | lia |].
  split; [exact Hcalls | exact Hloads].
Defined.

(** ** Missing extension file *)

(** C4.  With no cached handle and the file absent at the resolved
    path, the call raises the [ImportError] whose message ends in
    "Extension file not found: " and that exact path, and the cache is
    still [None].  In any later state where nothing was cached
    meanwhile, the file is back, the wrapper is registered under its
    name and the import system and [importlib] load the file, the call
    makes a fresh native load and returns the handle, which it caches. *)
Theorem load_extension_missing_file
  {N} (host : Host) (rt : Runtime N) (w : World N) :
  _extension_module w = PyNone →
  extension_file host ∉ files w →
  _load_extension host rt w
  = (Raise (ImportError ("Failed to import virapy extension: "
                         +:+ "Extension file not found: "
                         +:+ extension_file host)),
     with_trace (trace w ++ [EvPathExists (extension_file host)]) w)
  ∧ _extension_module (_load_extension host rt w).2 = PyNone
  ∧ ∀ w2 : World N,
      _extension_module w2 = _extension_module (_load_extension host rt w).2 →
      extension_file host ∈ files w2 →
      is_Some (sys_modules w2 !! __name__ host) →
      importable rt (__name__ host) (extension_file host) →
      ∃ mo w3,
        _load_extension host rt w2 = (Ok (PyObj mo), w3)
        ∧ _extension_module w3 = PyObj mo
        ∧ native_loads (trace w3) = native_loads (trace w2) + 1.
Proof.
  intros Hnone Hf.
  assert (Hc : is_not_None (_extension_module w) = false) by by rewrite Hnone.
  assert (Hrun : _load_extension host rt w
    = (Raise (ImportError ("Failed to import virapy extension: "
                           +:+ "Extension file not found: "
                           +:+ extension_file host)),
       with_trace (trace w ++ [EvPathExists (extension_file host)]) w)).
  { rewrite load_uncached by done. by rewrite locate_missing. }
  rewrite Hrun. split; [done|]. split; [done|].
  cbn. intros w2 Hc2 Hf2 [this_module Hn2] Himp.
  rewrite Hnone in Hc2.
  assert (Hc2' : is_not_None (_extension_module w2) = false) by by rewrite Hc2.
  destruct (imported_importable host rt w2 this_module Himp Hn2)
    as (wi & Hi & Hni).
  destruct (own_name_importable host rt (swapped host this_module wi) Himp)
    as (mo & w3 & Hown).
  assert (Hrun2 : _load_extension host rt w2
    = (Ok (PyObj mo),
       with_sys_modules
         (delete (temp_name host)
            (<[__name__ host := this_module]> (sys_modules w3))) w3)).
  { rewrite (load_through_swap host rt w2 wi this_module) by done.
    by rewrite Hown. }
  eexists _, _. split; [exact Hrun2|].
  destruct (load_success_uncached host rt _ _ _ Hc2' Hrun2)
    as (mo' & Hmo & Hcache & Hloads & _).
  injection Hmo as <-. done.
Qed.

(** The file is deleted, the call fails and caches nothing; the file is
    put back, the next call loads the extension. *)
Lemma load_extension_missing_file_witness :
  _load_extension posix_host sample_rt no_file_world
  = (Raise (ImportError
              "Failed to import virapy extension: Extension file not found: /site-packages/virapy/virapy.so"),
     with_trace [EvPathExists "/site-packages/virapy/virapy.so"] no_file_world)
  ∧ ∃ mo w3,
      _load_extension posix_host sample_rt
        (with_files {["/site-packages/virapy/virapy.so"]}
           (_load_extension posix_host sample_rt no_file_world).2)
      = (Ok (PyObj mo), w3)
      ∧ _extension_module w3 = PyObj mo
      ∧ native_loads (trace w3) = 1.
Proof.
  destruct (load_extension_missing_file posix_host sample_rt no_file_world)
    as (Hfail & Hnone & Hretry);
    [reflexivity | apply (bool_decide_unpack _); vm_compute; exact I |].
  split; [exact Hfail|].
  apply (Hretry
           (with_files {["/site-packages/virapy/virapy.so"]}
              (_load_extension posix_host sample_rt no_file_world).2)).
  - vm_compute; reflexivity.
  - apply (bool_decide_unpack _); vm_compute; exact I.
  - exists (PyObj 1). vm_compute; reflexivity.
  - split.
    + intros [m n]. eexists. split; [reflexivity|]. cbn.
      by rewrite lookup_union_l.
    + intros [m n]. eexists _, _, (m, n), _, (m, n), _.
      repeat split; reflexivity.
Defined.

Section Trace_facts.
Context {N : Type} (host : Host) (rt : Runtime N).
Implicit Types w : World N.

(** The import under the wrapper's name only appends to the trace, and
    never an activation. *)
Lemma own_name_trace w :
  ∃ rest,
    trace (load_under_own_name host rt w).2 = trace w ++ rest
    ∧ activations rest = 0.
Proof.
  unfold load_under_own_name. mrun;
    (eexists; split; [by rewrite <- ?(assoc_L (++))|reflexivity]).
Qed.

(** A call without a cached handle starts by probing the resolved
    path; no call ever invokes an activation. *)
Lemma load_trace w :
  ∃ rest,
    trace (_load_extension host rt w).2
    = trace w ++ (if is_not_None (_extension_module w) then []
                  else EvPathExists (extension_file host) :: rest)
    ∧ activations rest = 0.
Proof.
  destruct (is_not_None (_extension_module w)) eqn:Hc.
  { rewrite load_cached by done. exists []. cbn. rewrite List.app_nil_r. by split. }
  rewrite load_uncached by done.
  destruct (load_cases host rt w)
    as [(Hf & ->)|[(c & wi & Hf & Himp & ->)
                  |[(wi & Hf & Himp & Hn & ->)
                   |(wi & this_module & Hf & Himp & Hn & ->)]]];
    [by exists []|..].
  1,2: apply imported_counts in Himp as (_ & _ & _ & _ & _ & _ & Htr);
       by exists [EvImport "importlib.util"].
  apply imported_counts in Himp as (_ & _ & _ & _ & _ & _ & Hti).
  rewrite load_and_restore.
  destruct (own_name_trace (swapped host this_module wi)) as (rest & Htr & Hact).
  exists (EvImport "importlib.util" :: rest). split; [|done].
  destruct (load_under_own_name host rt (swapped host this_module wi))
    as [[h|c] w2]; cbn in *; rewrite Htr, Hti; by rewrite <- List.app_assoc.
Qed.

Lemma load_activations w :
  activations (trace (_load_extension host rt w).2) = activations (trace w).
Proof.
  destruct (load_trace w) as (rest & -> & Hact).
  rewrite activations_app.
  destruct (is_not_None (_extension_module w)); [done|].
  change (EvPathExists (extension_file host) :: rest)
    with ([EvPathExists (extension_file host)] ++ rest).
  rewrite activations_app, Hact. done.
Qed.
End Trace_facts.

Section Proxy_facts.
Context {N : Type} (host : Host) (rt : Runtime N).
Implicit Types (w : World N) (p : _LazySubmodule).

Lemma getattr_trace (o : value) (attr : string) w :
  trace (getattr rt o attr w).2 = trace w ++ [EvGetattr o attr]
  ∧ _extension_module (getattr rt o attr w).2 = _extension_module w.
Proof. unfold getattr. mrun; done. Qed.

Lemma dir_trace (o : value) w :
  trace (dir rt o w).2 = trace w ++ [EvDir o]
  ∧ _extension_module (dir rt o w).2 = _extension_module w.
Proof. unfold dir. mrun; done. Qed.

Lemma call_activate_trace (o : value) w :
  trace (call_activate rt o w).2 = trace w ++ [EvCallMethod o "_activate"]
  ∧ _extension_module (call_activate rt o w).2 = _extension_module w.
Proof. unfold call_activate. mrun; done. Qed.

(** An activated proxy is left alone. *)
Lemma ensure_active p w :
  _activated p = true →
  _ensure_activated host rt (p, w) = (Ok tt, (p, w)).
Proof.
  intros Ha. unfold _ensure_activated, get_self. unfold_monad. cbn.
  by rewrite Ha.
Qed.

(** A dormant proxy goes through load, lookup and activation, and
    stops at the first that raises. *)
Lemma ensure_dormant p w :
  _activated p = false →
  _ensure_activated host rt (p, w) =
  match _load_extension host rt w with
  | (Raise e, w1) => (Raise e, (p, w1))
  | (Ok extension, w1) =>
      match getattr rt extension (name p) w1 with
      | (Raise e, w2) => (Raise e, (p, w2))
      | (Ok submodule, w2) =>
          match call_activate rt submodule w2 with
          | (Raise e, w3) => (Raise e, (mkLazy (name p) submodule false, w3))
          | (Ok _, w3) => (Ok tt, (mkLazy (name p) submodule true, w3))
          end
      end
  end.
Proof.
  intros Ha. destruct p as [nm sub act]. cbn in *. subst act.
  unfold _ensure_activated, get_self, in_world, set_submodule, set_activated.
  unfold_monad. cbn.
  destruct (_load_extension host rt w) as [[extension|e] w1]; cbn; [|done].
  destruct (getattr rt extension nm w1) as [[submodule|e] w2]; cbn; [|done].
  by destruct (call_activate rt submodule w2) as [[v|e] w3].
Qed.

Lemma getattr_after_ensure (attr : string) p w :
  __getattr__ host rt attr (p, w) =
  match _ensure_activated host rt (p, w) with
  | (Raise e, s) => (Raise e, s)
  | (Ok _, s) =>
      ((getattr rt (_submodule s.1) attr s.2).1,
       (s.1, (getattr rt (_submodule s.1) attr s.2).2))
  end.
Proof.
  unfold __getattr__, get_self, in_world. unfold_monad.
  destruct (_ensure_activated host rt (p, w)) as [[[]|e] [p' w']]; [|done].
  cbn. by destruct (getattr rt (_submodule p') attr w').
Qed.

Lemma dir_after_ensure p w :
  __dir__ host rt (p, w) =
  match _ensure_activated host rt (p, w) with
  | (Raise e, s) => (Raise e, s)
  | (Ok _, s) =>
      ((dir rt (_submodule s.1) s.2).1, (s.1, (dir rt (_submodule s.1) s.2).2))
  end.
Proof.
  unfold __dir__, get_self, in_world. unfold_monad.
  destruct (_ensure_activated host rt (p, w)) as [[[]|e] [p' w']]; [|done].
  cbn. by destruct (dir rt (_submodule p') w').
Qed.

(** One use of an activated proxy: the proxy is as before, and the
    trace grew by one lookup or one listing on the stored object. *)
Lemma use_active (u : Use) p w :
  _activated p = true →
  (use host rt u (p, w)).2.1 = p
  ∧ ∃ ev, trace (use host rt u (p, w)).2.2 = trace w ++ [ev]
          ∧ is_activate ev = false ∧ is_exec_module ev = false.
Proof.
  intros Ha. destruct u as [attr|]; unfold use; unfold_monad.
  - rewrite getattr_after_ensure, ensure_active by done. cbn.
    destruct (getattr_trace (_submodule p) attr w) as [Htr _].
    destruct (getattr rt (_submodule p) attr w) as [[v|e] w'];
      cbn in *; (split; [done|]); by eexists.
  - rewrite dir_after_ensure, ensure_active by done. cbn.
    destruct (dir_trace (_submodule p) w) as [Htr _].
    destruct (dir rt (_submodule p) w) as [[v|e] w'];
      cbn in *; (split; [done|]); by eexists.
Qed.

(** Any number of uses of an activated proxy: still the same proxy,
    no further activation, no further native load. *)
Lemma run_uses_active (us : list Use) p w :
  _activated p = true →
  (run_uses host rt us (p, w)).1 = p
  ∧ activations (trace (run_uses host rt us (p, w)).2) = activations (trace w)
  ∧ native_loads (trace (run_uses host rt us (p, w)).2) = native_loads (trace w).
Proof.
  intros Ha. revert w. induction us as [|u us IH]; intros w; [done|].
  cbn [run_uses].
  destruct (use_active u p w Ha) as (Hp & ev & Htr & Hact & Hexec).
  destruct (use host rt u (p, w)) as [r [p' w']]. cbn in *. subst p'.
  destruct (IH w') as (IH1 & IH2 & IH3).
  rewrite IH1, IH2, IH3, Htr.
  unfold activations, native_loads.
  rewrite !List.filter_app, !length_app. cbn. rewrite Hact, Hexec. cbn.
  repeat split; lia.
Qed.

(** Two dormant proxies for the same variant behave alike on a use, and
    a use that returns has activated: one more activation in the trace. *)
Lemma dormant_use_same (attr : string) p q w :
  _activated p = false →
  _activated q = false →
  name p = name q →
  (__getattr__ host rt attr (p, w)).1 = (__getattr__ host rt attr (q, w)).1
  ∧ (__getattr__ host rt attr (p, w)).2.2 = (__getattr__ host rt attr (q, w)).2.2
  ∧ _activated (__getattr__ host rt attr (p, w)).2.1
    = _activated (__getattr__ host rt attr (q, w)).2.1
  ∧ ∀ v, (__getattr__ host rt attr (p, w)).1 = Ok v →
         (__getattr__ host rt attr (p, w)).2.1
         = (__getattr__ host rt attr (q, w)).2.1
         ∧ _activated (__getattr__ host rt attr (p, w)).2.1 = true
         ∧ activations (trace (__getattr__ host rt attr (p, w)).2.2)
           = activations (trace w) + 1.
Proof.
  intros Hp Hq Hname.
  rewrite !getattr_after_ensure, !ensure_dormant by done. rewrite <- Hname.
  pose proof (load_activations host rt w) as Hload.
  destruct (_load_extension host rt w) as [[extension|e] w1]; cbn in *;
    [|by rewrite Hp, Hq].
  destruct (getattr_trace extension (name p) w1) as [Hget _].
  destruct (getattr rt extension (name p) w1) as [[submodule|e] w2]; cbn in *;
    [|by rewrite Hp, Hq].
  destruct (call_activate_trace submodule w2) as [Hcall _].
  destruct (call_activate rt submodule w2) as [[r|e] w3]; cbn in *; [|done].
  repeat split; try done.
  destruct (getattr_trace submodule attr w3) as [Hfwd _].
  rewrite Hfwd, Hcall, Hget. rewrite !activations_app, Hload. cbn. lia.
Qed.

End Proxy_facts.

(** ** Activation failure *)

(** C5.  When the first use of a dormant proxy gets the extension and
    the submodule object and [_activate()] raises, the use raises that
    same exception and the proxy's [_activated] is still [False].  A
    later use does what the first use of a newly built proxy for that
    variant would do in the same state: same outcome, same world; and
    when it returns, the proxy is activated and [_activate()] was
    invoked once more. *)
Theorem activation_failure_keeps_dormant
  {N} (host : Host) (rt : Runtime N) (p : _LazySubmodule) (w : World N)
  (extension : value) (w1 : World N) (submodule : value) (w2 : World N)
  (e : exn) (w3 : World N) (attr : string) :
  _activated p = false →
  _load_extension host rt w = (Ok extension, w1) →
  getattr rt extension (name p) w1 = (Ok submodule, w2) →
  call_activate rt submodule w2 = (Raise e, w3) →
  __getattr__ host rt attr (p, w)
  = (Raise e, (mkLazy (name p) submodule false, w3))
  ∧ ∀ (attr' : string) (w4 : World N),
      let retry :=
        __getattr__ host rt attr' (mkLazy (name p) submodule false, w4) in
      let first :=
        __getattr__ host rt attr' (mkLazy (name p) PyNone false, w4) in
      retry.1 = first.1
      ∧ retry.2.2 = first.2.2
      ∧ _activated retry.2.1 = _activated first.2.1
      ∧ ∀ v, retry.1 = Ok v →
             retry.2.1 = first.2.1
             ∧ _activated retry.2.1 = true
             ∧ activations (trace retry.2.2) = activations (trace w4) + 1.
Proof.
  intros Ha Hload Hget Hcall. split.
  - rewrite getattr_after_ensure, ensure_dormant by done.
    by rewrite Hload, Hget, Hcall.
  - intros attr' w4. cbn zeta. by apply dormant_use_same.
Qed.

(** V8FF holds the arbiter; the first use of V1FF raises the arbiter's
    error, the proxy keeps the resolved object and stays dormant. *)
Lemma activation_failure_keeps_dormant_witness :
  __getattr__ posix_host sample_rt "render"
    (mkLazy "V1FF" PyNone false, v8_active_world)
  = (Raise (Exn "RuntimeError" "cannot activate V1FF: V8FF is active"),
     (mkLazy "V1FF" (PyObj 11) false,
      (call_activate sample_rt (PyObj 11)
         (getattr sample_rt (PyObj 10) "V1FF" v8_active_world).2).2)).
Proof.
  refine (proj1 (activation_failure_keeps_dormant posix_host sample_rt
                   (mkLazy "V1FF" PyNone false) v8_active_world
                   (PyObj 10) v8_active_world (PyObj 11)
                   (getattr sample_rt (PyObj 10) "V1FF" v8_active_world).2
                   (Exn "RuntimeError" "cannot activate V1FF: V8FF is active")
                   (call_activate sample_rt (PyObj 11)
                      (getattr sample_rt (PyObj 10) "V1FF" v8_active_world).2).2
                   "render" _ _ _ _));
    vm_compute; reflexivity.
Defined.

(** ** Forwarding once active *)

(** C6.  For a proxy whose [_activated] is [True]: an attribute access
    that reaches [__getattr__] is the lookup on the stored submodule
    object and nothing else, and after any sequence of uses the proxy
    is unchanged (so still activated), with no further invocation of
    [_activate()] and no further native load. *)
Theorem active_proxy_forwards
  {N} (host : Host) (rt : Runtime N) (p : _LazySubmodule) (w : World N)
  (attr : string) (us : list Use) :
  _activated p = true →
  __getattr__ host rt attr (p, w)
  = ((getattr rt (_submodule p) attr w).1,
     (p, (getattr rt (_submodule p) attr w).2))
  ∧ (run_uses host rt us (p, w)).1 = p
  ∧ _activated (run_uses host rt us (p, w)).1 = true
  ∧ activations (trace (run_uses host rt us (p, w)).2) = activations (trace w)
  ∧ native_loads (trace (run_uses host rt us (p, w)).2) = native_loads (trace w).
Proof.
  intros Ha. split.
  { by rewrite getattr_after_ensure, ensure_active. }
  destruct (run_uses_active host rt us p w Ha) as (Hp & Hact & Hloads).
  rewrite Hp. done.
Qed.

(** V8FF after its first use: reading [render] goes to object 12, and
    three more uses leave one activation in the trace. *)
Lemma active_proxy_forwards_witness :
  __getattr__ posix_host sample_rt "render"
    (mkLazy "V8FF" (PyObj 12) true, v8_active_world)
  = (Ok (PyObj 22),
     (mkLazy "V8FF" (PyObj 12) true,
      (getattr sample_rt (PyObj 12) "render" v8_active_world).2))
  ∧ activations
      (trace (run_uses posix_host sample_rt
                [UseGetattr "render"; UseDir; UseGetattr "absent"]
                (mkLazy "V8FF" (PyObj 12) true, v8_active_world)).2) = 1.
Proof.
  destruct (active_proxy_forwards posix_host sample_rt
              (mkLazy "V8FF" (PyObj 12) true) v8_active_world "render"
              [UseGetattr "render"; UseDir; UseGetattr "absent"])
    as (Hfwd & _ & _ & Hact & _); [reflexivity|].
  split; [exact Hfwd | exact Hact].
Defined.

(** ** Lazy construction *)

(** C7.  Building a proxy is pure: it returns the record with the given
    name, [_submodule = None] and [_activated = False] and leaves the
    world as it is, trace and [_extension_module] included.  The module
    body builds V1FF, V8FF and RGBFF this way and makes no call outside:
    the trace, the registry and the native state are as before, and
    [_extension_module] is [None].  The first use of such a proxy does
    go out: to the file system when nothing is cached, to the cached
    extension otherwise; and when it returns, the proxy is activated
    and [_activate()] was invoked exactly once. *)
Theorem proxy_construction_is_lazy
  {N} (host : Host) (rt : Runtime N) (w : World N) (nm attr : string) :
  __init__ nm w = (Ok (mkLazy nm PyNone false), w)
  ∧ (module_init host w).1
    = Ok (mkExports (mkLazy "V1FF" PyNone false) (mkLazy "V8FF" PyNone false)
                    (mkLazy "RGBFF" PyNone false))
  ∧ trace (module_init host w).2 = trace w
  ∧ sys_modules (module_init host w).2 = sys_modules w
  ∧ native (module_init host w).2 = native w
  ∧ _extension_module (module_init host w).2 = PyNone
  ∧ (∃ rest,
       trace (__getattr__ host rt attr (mkLazy nm PyNone false, w)).2.2
       = trace w
         ++ (if is_not_None (_extension_module w)
             then EvGetattr (_extension_module w) nm
             else EvPathExists (extension_file host)) :: rest)
  ∧ (∀ v, (__getattr__ host rt attr (mkLazy nm PyNone false, w)).1 = Ok v →
          _activated (__getattr__ host rt attr (mkLazy nm PyNone false, w)).2.1
          = true
          ∧ activations
              (trace (__getattr__ host rt attr (mkLazy nm PyNone false, w)).2.2)
            = activations (trace w) + 1).
Proof.
  split; [done|].
  assert (Hinit : ∃ w1 : World N,
             module_init host w
             = (Ok (mkExports (mkLazy "V1FF" PyNone false)
                              (mkLazy "V8FF" PyNone false)
                              (mkLazy "RGBFF" PyNone false)), w1)
             ∧ trace w1 = trace w ∧ sys_modules w1 = sys_modules w
             ∧ native w1 = native w ∧ _extension_module w1 = PyNone).
  { unfold module_init, register_dll_directory, __init__.
    destruct (String.eqb (platform_system host) "Windows");
      [destruct (has_add_dll_directory host)|];
      unfold_monad; unfold_world_ops; cbn; by eexists. }
  destruct Hinit as (w1 & -> & Htr & Hsm & Hnat & Hcache). cbn.
  do 5 (split; [done|]).
  split.
  - rewrite getattr_after_ensure, ensure_dormant by done. cbn.
    destruct (load_trace host rt w) as (rest & Hload & _).
    destruct (is_not_None (_extension_module w)) eqn:Hc.
    + rewrite load_cached in * by done. cbn.
      destruct (getattr_trace rt (_extension_module w) nm w) as [Hget _].
      destruct (getattr rt (_extension_module w) nm w) as [[sub|e] w2];
        cbn in *; [|by exists []].
      destruct (call_activate_trace rt sub w2) as [Hcall _].
      destruct (call_activate rt sub w2) as [[r|e] w3]; cbn in *.
      * destruct (getattr_trace rt sub attr w3) as [Hfwd _].
        rewrite Hfwd, Hcall, Hget. rewrite <- !List.app_assoc. by eexists.
      * rewrite Hcall, Hget. rewrite <- !List.app_assoc. by eexists.
    + destruct (_load_extension host rt w) as [[ext|e] w1']; cbn in *;
        [|by exists rest].
      destruct (getattr_trace rt ext nm w1') as [Hget _].
      destruct (getattr rt ext nm w1') as [[sub|e] w2]; cbn in *.
      * destruct (call_activate_trace rt sub w2) as [Hcall _].
        destruct (call_activate rt sub w2) as [[r|e] w3]; cbn in *.
        -- destruct (getattr_trace rt sub attr w3) as [Hfwd _].
           rewrite Hfwd, Hcall, Hget, Hload. rewrite <- !List.app_assoc.
           by eexists.
        -- rewrite Hcall, Hget, Hload. rewrite <- !List.app_assoc. by eexists.
      * rewrite Hget, Hload. rewrite <- !List.app_assoc. by eexists.
  - intros v Hok.
    destruct (dormant_use_same host rt attr (mkLazy nm PyNone false)
                (mkLazy nm PyNone false) w) as (_ & _ & _ & Hsucc); try done.
    destruct (Hsucc v Hok) as (_ & Hact & Hcount). done.
Qed.

(** ** Platform resolution *)

(** C8.  The extension file is [os.path.join(_package_dir, "virapy.pyd")]
    when [platform.system()] is "Windows" and
    [os.path.join(_package_dir, "virapy.so")] otherwise, and a call with
    nothing cached probes that path before anything else.  The module
    body makes no call outside (no load attempt), and on Windows it
    registers the package directory: through [os.add_dll_directory]
    when [os] has it, otherwise by setting [PATH] to the directory,
    [os.pathsep] and the old [PATH] (empty when unset); elsewhere it
    touches neither.  The loader never changes that registration. *)
Theorem platform_resolution
  {N} (host : Host) (rt : Runtime N) (w : World N) :
  extension_file host
  = os_path_join host (_package_dir host)
      (if String.eqb (platform_system host) "Windows"
       then "virapy.pyd" else "virapy.so")
  ∧ trace (module_init host w).2 = trace w
  ∧ dll_directories (module_init host w).2
    = (if String.eqb (platform_system host) "Windows"
          && has_add_dll_directory host
       then dll_directories w ++ [_package_dir host]
       else dll_directories w)
  ∧ environ (module_init host w).2
    = (if String.eqb (platform_system host) "Windows"
          && negb (has_add_dll_directory host)
       then <["PATH" := _package_dir host +:+ os_pathsep host
                        +:+ default "" (environ w !! "PATH")]> (environ w)
       else environ w)
  ∧ (∃ rest,
       trace (_load_extension host rt (module_init host w).2).2
       = trace w ++ EvPathExists (extension_file host) :: rest)
  ∧ dll_directories (_load_extension host rt (module_init host w).2).2
    = dll_directories (module_init host w).2
  ∧ environ (_load_extension host rt (module_init host w).2).2
    = environ (module_init host w).2.
Proof.
  split.
  { unfold extension_file.
    by destruct (String.eqb (platform_system host) "Windows"). }
  assert (Hinit :
    trace (module_init host w).2 = trace w
    ∧ _extension_module (module_init host w).2 = PyNone
    ∧ dll_directories (module_init host w).2
      = (if String.eqb (platform_system host) "Windows"
            && has_add_dll_directory host
         then dll_directories w ++ [_package_dir host]
         else dll_directories w)
    ∧ environ (module_init host w).2
      = (if String.eqb (platform_system host) "Windows"
            && negb (has_add_dll_directory host)
         then <["PATH" := _package_dir host +:+ os_pathsep host
                          +:+ default "" (environ w !! "PATH")]> (environ w)
         else environ w)).
  { unfold module_init, register_dll_directory, __init__.
    destruct (String.eqb (platform_system host) "Windows");
      [destruct (has_add_dll_directory host)|];
      unfold_monad; unfold_world_ops; cbn; done. }
  destruct Hinit as (Htr & Hcache & Hdll & Henv).
  do 3 (split; [done|]).
  destruct (load_keeps_search_path host rt (module_init host w).2)
    as (Hkd & Hke & _).
  split; [|done].
  destruct (load_trace host rt (module_init host w).2) as (rest & Hload & _).
  rewrite Hcache, Htr in Hload. by exists rest.
Qed.

(** ** A variant the extension does not have *)

(** C10.  For a dormant proxy whose use gets the extension: when the
    lookup of the variant name on the extension raises, the use raises
    that same exception (the lookup's own, not wrapped by the loader),
    the proxy is exactly as before, so [_activated] is [False] and
    [_submodule] untouched, and [_activate()] was not invoked; when the
    lookup returns an object and [_activate()] raises, the use raises
    that exception and the proxy holds the object in [_submodule] with
    [_activated] still [False]. *)
Theorem missing_variant_or_failed_activation
  {N} (host : Host) (rt : Runtime N) (p : _LazySubmodule) (w : World N)
  (extension : value) (w1 : World N) (attr : string) :
  _activated p = false →
  _load_extension host rt w = (Ok extension, w1) →
  (∀ (e : exn) (w2 : World N),
     getattr rt extension (name p) w1 = (Raise e, w2) →
     __getattr__ host rt attr (p, w) = (Raise e, (p, w2))
     ∧ _activated (__getattr__ host rt attr (p, w)).2.1 = false
     ∧ activations (trace w2) = activations (trace w))
  ∧ (∀ (submodule : value) (w2 : World N) (e : exn) (w3 : World N),
       getattr rt extension (name p) w1 = (Ok submodule, w2) →
       call_activate rt submodule w2 = (Raise e, w3) →
       (__getattr__ host rt attr (p, w)).1 = Raise e
       ∧ _submodule (__getattr__ host rt attr (p, w)).2.1 = submodule
       ∧ _activated (__getattr__ host rt attr (p, w)).2.1 = false).
Proof.
  intros Ha Hload.
  pose proof (load_activations host rt w) as Hact. rewrite Hload in Hact.
  split.
  - intros e w2 Hget.
    rewrite getattr_after_ensure, ensure_dormant by done.
    rewrite Hload, Hget. cbn. do 2 (split; [done|]).
    destruct (getattr_trace rt extension (name p) w1) as [Htr _].
    rewrite Hget in Htr. cbn in *. rewrite Htr, activations_app, Hact.
    cbn. lia.
  - intros submodule w2 e w3 Hget Hcall.
    rewrite getattr_after_ensure, ensure_dormant by done.
    by rewrite Hload, Hget, Hcall.
Qed.

(** An extension without [V1FF]: the first use of the proxy raises the
    [AttributeError] of the lookup and the proxy is untouched.  And with
    V8FF holding the arbiter, the failed activation of V1FF leaves
    object 11 in [_submodule]. *)
Lemma missing_variant_or_failed_activation_witness :
  (__getattr__ posix_host bare_rt "render"
     (mkLazy "V1FF" PyNone false, fresh_world)).1
  = Raise (AttributeError "V1FF")
  ∧ (__getattr__ posix_host bare_rt "render"
       (mkLazy "V1FF" PyNone false, fresh_world)).2.1
    = mkLazy "V1FF" PyNone false
  ∧ _submodule (__getattr__ posix_host sample_rt "render"
                  (mkLazy "V1FF" PyNone false, v8_active_world)).2.1
    = PyObj 11.
Proof.
  destruct (missing_variant_or_failed_activation posix_host bare_rt
              (mkLazy "V1FF" PyNone false) fresh_world (PyObj 10)
              (_load_extension posix_host bare_rt fresh_world).2 "render")
    as [Hmissing _]; [reflexivity | vm_compute; reflexivity |].
  destruct (Hmissing (AttributeError "V1FF")
              (getattr bare_rt (PyObj 10) "V1FF"
                 (_load_extension posix_host bare_rt fresh_world).2).2)
    as (Hraise & _ & _); [vm_compute; reflexivity|].
  destruct (missing_variant_or_failed_activation posix_host sample_rt
              (mkLazy "V1FF" PyNone false) v8_active_world (PyObj 10)
              v8_active_world "render")
    as [_ Hfailed]; [reflexivity | vm_compute; reflexivity |].
  destruct (Hfailed (PyObj 11)
              (getattr sample_rt (PyObj 10) "V1FF" v8_active_world).2
              (Exn "RuntimeError" "cannot activate V1FF: V8FF is active")
              (call_activate sample_rt (PyObj 11)
                 (getattr sample_rt (PyObj 10) "V1FF" v8_active_world).2).2)
    as (_ & Hsub & _); [vm_compute; reflexivity | vm_compute; reflexivity |].
  rewrite Hraise. split; [reflexivity|]. split; [reflexivity|]. exact Hsub.
Defined.

(** ** The scenarios of the specification, run on the sample extension *)

(** Fresh process, file present, first use is [V1FF.render]: one native
    load, one activation, the proxy is active and the value is the
    activated object's own attribute. *)
Example first_use_scenario :
  let run := __getattr__ posix_host sample_rt "render"
               (mkLazy "V1FF" PyNone false, fresh_world) in
  run.1 = Ok (PyObj 21)
  ∧ run.2.1 = mkLazy "V1FF" (PyObj 11) true
  ∧ native run.2.2 = Some "V1FF"
  ∧ trace run.2.2
    = [EvPathExists "/site-packages/virapy/virapy.so";
       EvImport "importlib.util";
       EvSpecFromFileLocation "virapy" "/site-packages/virapy/virapy.so";
       EvModuleFromSpec {| loader := Some 1%positive |};
       EvExecModule 1 10;
       EvGetattr (PyObj 10) "V1FF";
       EvCallMethod (PyObj 11) "_activate";
       EvGetattr (PyObj 11) "render"].
Proof. repeat split; vm_compute; reflexivity. Qed.

(** V8FF is active; a use of V1FF is rejected, V8FF is still the
    current variant and still answers. *)
Example conflict_preserves_prior_state :
  let rejected := __getattr__ posix_host sample_rt "render"
                    (mkLazy "V1FF" PyNone false, v8_active_world) in
  rejected.1
  = Raise (Exn "RuntimeError" "cannot activate V1FF: V8FF is active")
  ∧ native rejected.2.2 = Some "V8FF"
  ∧ (__getattr__ posix_host sample_rt "render"
       (mkLazy "V8FF" (PyObj 12) true, rejected.2.2)).1 = Ok (PyObj 22).
Proof. repeat split; vm_compute; reflexivity. Qed.

(** The file is missing at first use: the proxy stays as built and
    nothing is cached. *)
Example missing_file_scenario :
  let run := __getattr__ posix_host sample_rt "render"
               (mkLazy "V1FF" PyNone false, no_file_world) in
  run.1
  = Raise (ImportError
             "Failed to import virapy extension: Extension file not found: /site-packages/virapy/virapy.so")
  ∧ run.2.1 = mkLazy "V1FF" PyNone false
  ∧ _extension_module run.2.2 = PyNone.
Proof. repeat split; vm_compute; reflexivity. Qed.

(** On Windows with [os.add_dll_directory], and without it. *)
Example windows_registration :
  extension_file (windows_host true) = "C:\site-packages\virapy\virapy.pyd"
  ∧ dll_directories (module_init (windows_host true) fresh_world).2
    = ["C:\site-packages\virapy"]
  ∧ environ (module_init (windows_host false)
               (with_environ (<["PATH" := "C:\Windows"]> ∅) fresh_world)).2
      !! "PATH"
    = Some "C:\site-packages\virapy;C:\Windows"
  ∧ extension_file posix_host = "/site-packages/virapy/virapy.so"
  ∧ dll_directories (module_init posix_host fresh_world).2 = [].
Proof. repeat split; vm_compute; reflexivity. Qed.

(** * Further properties of the loader and the proxies *)

Section Loader_more.
Context {N : Type} (host : Host) (rt : Runtime N).
Implicit Types w : World N.

Lemma own_name_neutral w :
  registry_neutral rt →
  sys_modules (load_under_own_name host rt w).2 = sys_modules w.
Proof.
  intros (Hspec & Hmod & Hexec). unfold load_under_own_name.
  pose proof (Hspec (__name__ host) (extension_file host)
                (sys_modules w, native w)) as H1.
  unfold_monad. unfold_world_ops. cbn.
  destruct (spec_from_file_location rt (__name__ host) (extension_file host)
              (sys_modules w, native w)) as [[[sp|]|e] [m1 n1]];
    cbn in *; subst m1; try done.
  destruct (loader sp) as [ld|]; cbn; [|done].
  pose proof (Hmod sp (sys_modules w, n1)) as H2.
  destruct (module_from_spec rt sp (sys_modules w, n1)) as [[mo|e] [m2 n2]];
    cbn in *; subst m2; [|done].
  pose proof (Hexec ld mo (sys_modules w, n2)) as H3.
  by destruct (exec_module rt ld mo (sys_modules w, n2)) as [[[]|e] [m3 n3]];
    cbn in *; subst m3.
Qed.
End Loader_more.

(** A raising call caches nothing and changes neither the file system
    view nor the search path; it made at most one native load, and the
    next call starts over by probing the extension file. *)
Theorem load_failure_caches_nothing
  {N} (host : Host) (rt : Runtime N) (w : World N) (e : exn) (w' : World N) :
  _load_extension host rt w = (Raise e, w') →
  _extension_module w = PyNone
  ∧ _extension_module w' = PyNone
  ∧ files w' = files w
  ∧ dll_directories w' = dll_directories w
  ∧ environ w' = environ w
  ∧ native_loads (trace w') ≤ native_loads (trace w) + 1
  ∧ ∃ rest,
      trace (_load_extension host rt w').2
      = trace w' ++ EvPathExists (extension_file host) :: rest.
Proof.
  intros Hrun.
  destruct (is_not_None (_extension_module w)) eqn:Hc.
  { by rewrite load_cached in Hrun. }
  assert (Hnone : _extension_module w = PyNone).
  { by destruct (_extension_module w). }
  assert (Hkeep : _extension_module w' = PyNone
                  ∧ files w' = files w
                  ∧ dll_directories w' = dll_directories w
                  ∧ environ w' = environ w
                  ∧ native_loads (trace w') ≤ native_loads (trace w) + 1).
  { rewrite load_uncached in Hrun by done.
    destruct (load_cases host rt w)
      as [(Hf & Heq)|[(c & wi & Hf & Himp & Heq)
                     |[(wi & Hf & Himp & Hn & Heq)
                      |(wi & this_module & Hf & Himp & Hn & Heq)]]];
      rewrite Heq in Hrun.
    - injection Hrun as _ <-. unfold native_loads. cbn.
      rewrite List.filter_app, length_app. cbn. repeat split; try done; lia.
    - injection Hrun as _ <-.
      apply imported_counts in Himp as (Hci & Hfi & Hdi & Hei & Hli & _).
      rewrite Hci, Hfi, Hdi, Hei, Hli. repeat split; try done; lia.
    - injection Hrun as _ <-.
      apply imported_counts in Himp as (Hci & Hfi & Hdi & Hei & Hli & _).
      rewrite Hci, Hfi, Hdi, Hei, Hli. repeat split; try done; lia.
    - rewrite load_and_restore in Hrun.
      destruct (load_under_own_name host rt (swapped host this_module wi))
        as [[h|c] w2] eqn:Hown; [done|].
      injection Hrun as _ <-.
      apply own_name_failure in Hown as (Hc2 & Hf2 & Hd2 & He2 & Hloads & _).
      apply imported_counts in Himp as (Hci & Hfi & Hdi & Hei & Hli & _).
      cbn -[native_loads] in *. rewrite Hc2, Hf2, Hd2, He2, Hci, Hfi, Hdi, Hei.
      repeat split; try done; lia. }
  destruct Hkeep as (Hc' & Hf' & Hd' & He' & Hl').
  do 6 (split; [done|]).
  destruct (load_trace host rt w') as (rest & Htr & _).
  rewrite Hc' in Htr. by exists rest.
Qed.

(** The sample extension fails while executing: nothing is cached. *)
Lemma load_failure_caches_nothing_witness :
  _extension_module (_load_extension posix_host corrupt_rt fresh_world).2
  = PyNone
  ∧ native_loads (trace (_load_extension posix_host corrupt_rt fresh_world).2)
    ≤ 1.
Proof.
  destruct (load_failure_caches_nothing posix_host corrupt_rt fresh_world
              (ImportError "Failed to import virapy extension: DLL load failed")
              (_load_extension posix_host corrupt_rt fresh_world).2)
    as (_ & Hcache & _ & _ & _ & Hloads & _); [vm_compute; reflexivity|].
  split; [exact Hcache | exact Hloads].
Defined.

(** The swap and its undoing cancel out.  When the calls of lines 59-62
    into [importlib] and the extension leave [sys.modules] alone, the
    only lasting change a call makes to the registry is what line 46
    brought in: a call that ends before line 46 (cached handle, missing
    file) leaves [sys.modules] exactly as it was, and any other call,
    returned or raised, leaves it exactly as [import importlib.util]
    left it, provided no entry sat under the alias name then. *)
Theorem load_registry_round_trip
  {N} (host : Host) (rt : Runtime N) (w : World N) :
  registry_neutral rt →
  sys_modules (past_import host rt w) !! temp_name host = None →
  sys_modules (_load_extension host rt w).2
  = sys_modules (past_import host rt w).
Proof.
  intros Hneutral. unfold past_import. rewrite load_registry.
  destruct (reaches_import host w); [|done].
  destruct (reaches_swap host rt w) eqn:Hswap; [|done].
  intros Htemp.
  unfold reaches_swap in Hswap. apply andb_prop in Hswap as [_ Hswap].
  destruct (imported host rt w) as [[[]|c] wi]; [|done]. cbn in *.
  apply bool_decide_eq_true in Hswap as [this_module Hn]. rewrite Hn. cbn.
  rewrite own_name_neutral by done. cbn.
  apply map_eq. intros k.
  destruct (decide (k = temp_name host)) as [->|Hkt].
  { by rewrite lookup_delete_eq. }
  rewrite lookup_delete_ne by done.
  destruct (decide (k = __name__ host)) as [->|Hkn].
  { by rewrite lookup_insert_eq. }
  rewrite lookup_insert_ne by done.
  rewrite lookup_delete_ne by done.
  by rewrite lookup_insert_ne.
Qed.

Lemma quiet_rt_neutral : registry_neutral quiet_rt.
Proof. repeat split. Qed.

(** A successful load with a quiet extension in the fresh process: the
    registry holds the wrapper as before, and the modules that line 46
    imported. *)
Lemma load_registry_round_trip_witness :
  sys_modules (_load_extension posix_host quiet_rt fresh_world).2
  = <["virapy" := PyObj 1]> importlib_util_modules
  ∧ (_load_extension posix_host quiet_rt fresh_world).1 = Ok (PyObj 10).
Proof.
  split.
  - etransitivity.
    + apply (load_registry_round_trip posix_host quiet_rt fresh_world).
      * exact quiet_rt_neutral.
      * vm_compute; reflexivity.
    + vm_compute; reflexivity.
  - vm_compute; reflexivity.
Defined.

(** The import runs with the wrapper's own name free.  When nothing is
    cached, the file exists, line 46 has returned and the wrapper is
    then registered, the import of the extension starts right after
    line 46, from the registry that line left, changed in two entries:
    the wrapper's name is unbound and the alias holds the wrapper.  The
    call returns what that import returns, or raises its error wrapped,
    and then puts the wrapper back and drops the alias. *)
Theorem import_under_free_name
  {N} (host : Host) (rt : Runtime N) (w w1 : World N) (this_module : value) :
  _extension_module w = PyNone →
  extension_file host ∈ files w →
  imported host rt w = (Ok tt, w1) →
  sys_modules w1 !! __name__ host = Some this_module →
  sys_modules (swapped host this_module w1) !! __name__ host = None
  ∧ sys_modules (swapped host this_module w1) !! temp_name host
    = Some this_module
  ∧ (∀ k, k ≠ __name__ host → k ≠ temp_name host →
          sys_modules (swapped host this_module w1) !! k = sys_modules w1 !! k)
  ∧ trace (swapped host this_module w1)
    = trace w ++ [EvPathExists (extension_file host); EvImport "importlib.util"]
  ∧ _load_extension host rt w
    = (match (load_under_own_name host rt (swapped host this_module w1)).1 with
       | Ok h => Ok h
       | Raise cause => Raise (wrap_failure cause)
       end,
       with_sys_modules
         (delete (temp_name host)
            (<[__name__ host := this_module]>
               (sys_modules
                  (load_under_own_name host rt
                     (swapped host this_module w1)).2)))
         (load_under_own_name host rt (swapped host this_module w1)).2).
Proof.
  intros Hnone Hf Himp Hn.
  assert (Hc : is_not_None (_extension_module w) = false) by by rewrite Hnone.
  split; [|split; [|split; [|split]]].
  - cbn. by rewrite lookup_delete_eq.
  - cbn. rewrite lookup_delete_ne by apply name_ne_temp.
    by rewrite lookup_insert_eq.
  - intros k Hkn Hkt. cbn. rewrite lookup_delete_ne by done.
    by rewrite lookup_insert_ne.
  - by apply imported_counts in Himp as (_ & _ & _ & _ & _ & _ & Htr).
  - by apply load_through_swap.
Qed.

(** In the fresh process the import of the extension sees "virapy"
    free, the wrapper (object 1) under "virapy_temp", and
    [importlib.util] (object 37) where line 46 put it. *)
Lemma import_under_free_name_witness :
  sys_modules (swapped posix_host (PyObj 1)
                 (imported posix_host sample_rt fresh_world).2) !! "virapy"
  = None
  ∧ sys_modules (swapped posix_host (PyObj 1)
                   (imported posix_host sample_rt fresh_world).2)
      !! "virapy_temp"
    = Some (PyObj 1)
  ∧ sys_modules (swapped posix_host (PyObj 1)
                   (imported posix_host sample_rt fresh_world).2)
      !! "importlib.util"
    = Some (PyObj 37).
Proof.
  destruct (import_under_free_name posix_host sample_rt fresh_world
              (imported posix_host sample_rt fresh_world).2 (PyObj 1))
    as (Hfree & Halias & Hrest & _).
  - reflexivity.
  - apply (bool_decide_unpack _); vm_compute; exact I.
  - vm_compute; reflexivity.
  - vm_compute; reflexivity.
  - split; [exact Hfree|]. split; [exact Halias|].
    rewrite Hrest by done. vm_compute; reflexivity.
Defined.

Section Proxy_more.
Context {N : Type} (host : Host) (rt : Runtime N).
Implicit Types (w : World N) (p : _LazySubmodule).

(** What [_ensure_activated] leaves when it returns. *)
Lemma ensure_ok p w s :
  _ensure_activated host rt (p, w) = (Ok tt, s) →
  _activated s.1 = true
  ∧ name s.1 = name p
  ∧ (_activated p = false → is_not_None (_extension_module s.2) = true).
Proof.
  intros Hrun. destruct (_activated p) eqn:Ha.
  { rewrite ensure_active in Hrun by done. injection Hrun as <-. done. }
  rewrite ensure_dormant in Hrun by done.
  destruct (_load_extension host rt w) as [[extension|e] w1] eqn:Hload; [|done].
  apply load_success_cached in Hload as [Hnn Hcache].
  destruct (getattr_trace rt extension (name p) w1) as [_ Hg].
  destruct (getattr rt extension (name p) w1) as [[submodule|e] w2]; [|done].
  destruct (call_activate_trace rt submodule w2) as [_ Hcall].
  destruct (call_activate rt submodule w2) as [[r|e] w3]; [|done].
  injection Hrun as <-. cbn in *. repeat split; try done.
  intros _. by rewrite Hcall, Hg, Hcache.
Qed.

(** No use of a proxy makes a native load once the extension is
    cached. *)
Lemma use_cached_no_load (attr : string) p w :
  is_not_None (_extension_module w) = true →
  native_loads (trace (__getattr__ host rt attr (p, w)).2.2)
  = native_loads (trace w).
Proof.
  intros Hc. rewrite getattr_after_ensure.
  destruct (_activated p) eqn:Ha.
  - rewrite ensure_active by done. cbn.
    destruct (getattr_trace rt (_submodule p) attr w) as [-> _].
    rewrite native_loads_app. cbn. lia.
  - rewrite ensure_dormant, load_cached by done.
    destruct (getattr_trace rt (_extension_module w) (name p) w) as [Hg _].
    destruct (getattr rt (_extension_module w) (name p) w)
      as [[submodule|e] w2]; cbn in *.
    + destruct (call_activate_trace rt submodule w2) as [Hcall _].
      destruct (call_activate rt submodule w2) as [[r|e] w3]; cbn in *.
      * destruct (getattr_trace rt submodule attr w3) as [-> _].
        rewrite Hcall, Hg, !native_loads_app. cbn. lia.
      * rewrite Hcall, Hg, !native_loads_app. cbn. lia.
    + rewrite Hg, native_loads_app. cbn. lia.
Qed.
End Proxy_more.

(** When the loader raises on the first use of a dormant proxy, both
    attribute access and [dir()] raise that same exception, the proxy
    is exactly as it was, and the world is the one the loader left: no
    lookup on the extension and no activation was attempted. *)
Theorem load_failure_leaves_proxy
  {N} (host : Host) (rt : Runtime N) (p : _LazySubmodule) (w : World N)
  (e : exn) (w1 : World N) (attr : string) :
  _activated p = false →
  _load_extension host rt w = (Raise e, w1) →
  __getattr__ host rt attr (p, w) = (Raise e, (p, w1))
  ∧ __dir__ host rt (p, w) = (Raise e, (p, w1))
  ∧ exn_type e = "ImportError".
Proof.
  intros Ha Hload.
  rewrite getattr_after_ensure, dir_after_ensure, ensure_dormant by done.
  rewrite Hload. do 2 (split; [done|]).
  destruct (is_not_None (_extension_module w)) eqn:Hc.
  { by rewrite load_cached in Hload. }
  rewrite load_uncached in Hload by done.
  destruct (locate_and_load host rt w) as [[h|c] w']; [done|].
  by injection Hload as <- _.
Qed.

(** The file is missing: [V1FF.render] raises the loader's error and the
    proxy is as built. *)
Lemma load_failure_leaves_proxy_witness :
  __getattr__ posix_host sample_rt "render"
    (mkLazy "V1FF" PyNone false, no_file_world)
  = (Raise (ImportError
              "Failed to import virapy extension: Extension file not found: /site-packages/virapy/virapy.so"),
     (mkLazy "V1FF" PyNone false,
      (_load_extension posix_host sample_rt no_file_world).2)).
Proof.
  refine (proj1 (load_failure_leaves_proxy posix_host sample_rt
                   (mkLazy "V1FF" PyNone false) no_file_world _ _ "render"
                   _ _)); vm_compute; reflexivity.
Defined.

(** A check that returned needs no repeating: once [_ensure_activated]
    has returned, the proxy is activated under the same name, and
    running it again returns at once and changes nothing. *)
Theorem ensure_activated_settles
  {N} (host : Host) (rt : Runtime N) (p : _LazySubmodule) (w : World N)
  (s : _LazySubmodule * World N) :
  _ensure_activated host rt (p, w) = (Ok tt, s) →
  _activated s.1 = true
  ∧ name s.1 = name p
  ∧ _ensure_activated host rt s = (Ok tt, s).
Proof.
  intros Hrun. destruct (ensure_ok host rt p w s Hrun) as (Hact & Hname & _).
  do 2 (split; [done|]). destruct s as [p' w']. by apply ensure_active.
Qed.

Lemma ensure_activated_settles_witness :
  _ensure_activated posix_host sample_rt
    (_ensure_activated posix_host sample_rt
       (mkLazy "V1FF" PyNone false, fresh_world)).2
  = (Ok tt,
     (_ensure_activated posix_host sample_rt
        (mkLazy "V1FF" PyNone false, fresh_world)).2).
Proof.
  refine (proj2 (proj2 (ensure_activated_settles posix_host sample_rt
                          (mkLazy "V1FF" PyNone false) fresh_world _ _))).
  vm_compute; reflexivity.
Defined.

(** The proxies share one extension: after the first use of a dormant
    proxy has returned, the extension is cached, and a use of any other
    proxy, dormant or active, whatever its outcome, makes no native
    load. *)
Theorem proxies_share_extension
  {N} (host : Host) (rt : Runtime N) (p q : _LazySubmodule) (w : World N)
  (attr attr' : string) (v : value) (s : _LazySubmodule * World N) :
  _activated p = false →
  __getattr__ host rt attr (p, w) = (Ok v, s) →
  is_not_None (_extension_module s.2) = true
  ∧ native_loads (trace (__getattr__ host rt attr' (q, s.2)).2.2)
    = native_loads (trace s.2).
Proof.
  intros Ha Hrun.
  assert (Hc : is_not_None (_extension_module s.2) = true).
  { rewrite getattr_after_ensure in Hrun.
    destruct (_ensure_activated host rt (p, w)) as [[[]|e] s1] eqn:Hens;
      [|done].
    destruct (ensure_ok host rt p w s1 Hens) as (_ & _ & Hcache).
    destruct (getattr_trace rt (_submodule s1.1) attr s1.2) as [_ Hg].
    injection Hrun as _ <-. cbn. rewrite Hg. by apply Hcache. }
  split; [done|]. by apply use_cached_no_load.
Qed.

(** V1FF is used first, then V8FF (rejected by the arbiter): still one
    native load. *)
Lemma proxies_share_extension_witness :
  native_loads
    (trace (__getattr__ posix_host sample_rt "render"
              (mkLazy "V8FF" PyNone false,
               (__getattr__ posix_host sample_rt "render"
                  (mkLazy "V1FF" PyNone false, fresh_world)).2.2)).2.2)
  = 1.
Proof.
  destruct (proxies_share_extension posix_host sample_rt
              (mkLazy "V1FF" PyNone false) (mkLazy "V8FF" PyNone false)
              fresh_world "render" "render" (PyObj 21)
              (__getattr__ posix_host sample_rt "render"
                 (mkLazy "V1FF" PyNone false, fresh_world)).2)
    as [_ Hloads]; [reflexivity | vm_compute; reflexivity |].
  exact Hloads.
Defined.

(** [dir(proxy)] goes through the same activation as attribute access:
    when the activation check raises, both raise that exception from
    the same state; when it returns, both leave the same activated
    proxy, and [dir()] lists the stored submodule object. *)
Theorem dir_activates_like_getattr
  {N} (host : Host) (rt : Runtime N) (p : _LazySubmodule) (w : World N)
  (attr : string) :
  (∀ e s, _ensure_activated host rt (p, w) = (Raise e, s) →
          __dir__ host rt (p, w) = (Raise e, s)
          ∧ __getattr__ host rt attr (p, w) = (Raise e, s))
  ∧ (∀ s, _ensure_activated host rt (p, w) = (Ok tt, s) →
          __dir__ host rt (p, w)
          = ((dir rt (_submodule s.1) s.2).1,
             (s.1, (dir rt (_submodule s.1) s.2).2))
          ∧ (__dir__ host rt (p, w)).2.1
            = (__getattr__ host rt attr (p, w)).2.1
          ∧ _activated (__dir__ host rt (p, w)).2.1 = true)
  ∧ (_activated p = true →
     __dir__ host rt (p, w)
     = ((dir rt (_submodule p) w).1, (p, (dir rt (_submodule p) w).2))).
Proof.
  split; [|split].
  - intros e s Hens. rewrite dir_after_ensure, getattr_after_ensure.
    by rewrite Hens.
  - intros s Hens. rewrite dir_after_ensure, getattr_after_ensure.
    rewrite Hens. cbn. split; [done|]. split; [done|].
    by destruct (ensure_ok host rt p w s Hens) as (Hact & _).
  - intros Ha. by rewrite dir_after_ensure, ensure_active.
Qed.

(** * Frame names of the example script *)

Example pad_zeros_examples :
  pad_zeros cpython_3_11 5 3 = Ok "005"
  ∧ pad_zeros cpython_3_11 (-5) 3 = Ok "-05"
  ∧ pad_zeros cpython_3_11 1234 3 = Ok "1234"
  ∧ pad_zeros cpython_3_11 0 0 = Ok "0"
  ∧ pad_zeros cpython_3_11 (-123) 3 = Ok "-123"
  ∧ pad_zeros cpython_3_11 0 3 = Ok "000".
Proof. repeat split; vm_compute; reflexivity. Qed.

(** Where the interpreter refuses, and where it does not.  With the
    digit limit at its lowest, 640: a number or a width of 641 digits is
    refused, a number of 640 digits and a width of 641 are not.  With
    the limit as CPython starts: a negative width is no width, a width
    above [sys.maxsize] is refused before the number is looked at, and
    a text too long for the process is a [MemoryError]. *)
Example pad_zeros_refused :
  pad_zeros cpython_limit_640 (10 ^ 640) 3
  = Raise (ValueError "Exceeds the limit (640 digits) for integer string conversion; use sys.set_int_max_str_digits() to increase the limit")
  ∧ pad_zeros cpython_limit_640 5 (10 ^ 640)
    = Raise (ValueError "Exceeds the limit (640 digits) for integer string conversion; use sys.set_int_max_str_digits() to increase the limit")
  ∧ pad_zeros cpython_limit_640 (10 ^ 640) 9223372036854775807
    = Raise (ValueError "Exceeds the limit (640 digits) for integer string conversion; use sys.set_int_max_str_digits() to increase the limit")
  ∧ pad_zeros cpython_limit_640 (10 ^ 639) 3 = Ok (py_str_N (10 ^ 639))
  ∧ pad_zeros cpython_limit_640 (- 10 ^ 639) 3
    = Ok ("-" +:+ py_str_N (10 ^ 639))
  ∧ pad_zeros cpython_limit_640 5 641 = Ok (zeros 640 +:+ "5")
  ∧ pad_zeros cpython_3_11 5 (-1)
    = Raise (ValueError "Invalid format specifier '0-1d' for object of type 'int'")
  ∧ pad_zeros cpython_3_11 5 (10 ^ 30)
    = Raise (ValueError "Too many decimal digits in format string")
  ∧ pad_zeros cpython_limit_640 (10 ^ 640) (10 ^ 30)
    = Raise (ValueError "Too many decimal digits in format string")
  ∧ pad_zeros cpython_3_11 5 9223372036854775807 = Raise MemoryError.
Proof. repeat split; vm_compute; reflexivity. Qed.

Lemma string_length_app (s t : string) :
  String.length (s +:+ t) = String.length s + String.length t.
Proof. induction s as [|a s IH]; simpl; [done|]. by f_equal. Qed.

Lemma length_zeros (k : nat) : String.length (zeros k) = k.
Proof. induction k as [|k IH]; simpl; [done|]. by f_equal. Qed.

Lemma length_string_of_uint (d : Decimal.uint) :
  String.length (NilEmpty.string_of_uint d) = Decimal.nb_digits d.
Proof. induction d; simpl; [done|by f_equal..]. Qed.





(** What [pad_zeros] returns, when it returns. *)
Lemma pad_zeros_ok (py : Interpreter) (number width : Z) (text : string) :
  pad_zeros py number width = Ok text →
  text = zero_padded number (Z.to_nat width)
  ∧ (0 ≤ width)%Z
  ∧ exceeds_digit_limit py number = false
  ∧ (padded_length number width ≤ max_str_len py)%N.
Proof.
  unfold pad_zeros. intros Hrun.
  destruct (exceeds_digit_limit py width); [done|].
  destruct (width <? 0)%Z eqn:Hw; [done|]. apply Z.ltb_ge in Hw.
  destruct (maxsize py <? Z.to_N width)%N; [done|].
  destruct (exceeds_digit_limit py number); [done|].
  destruct (max_str_len py <? padded_length number width)%N eqn:Hlen; [done|].
  apply N.ltb_ge in Hlen. by injection Hrun as <-.
Qed.



(** The value of an accumulated decimal lies between the accumulator
    shifted by the digits read and the next accumulator shifted. *)
Lemma of_uint_acc_bounds (d : Decimal.uint) (acc : positive) :
  (Z.pos acc * 10 ^ Z.of_nat (Decimal.nb_digits d)
   ≤ Z.pos (Pos.of_uint_acc d acc)
   < (Z.pos acc + 1) * 10 ^ Z.of_nat (Decimal.nb_digits d))%Z.
Proof.
  revert acc. induction d as [|d IH|d IH|d IH|d IH|d IH|d IH|d IH|d IH|d IH|d IH];
    intros acc; simpl Decimal.nb_digits; simpl Pos.of_uint_acc.
  { change (Z.of_nat 0) with 0%Z. lia. }
  all: rewrite Nat2Z.inj_succ, Z.pow_succ_r by lia.
  all: match goal with
       | |- context [Pos.of_uint_acc ?x ?a] =>
           specialize (IH a);
           assert (0 < 10 ^ Z.of_nat (Decimal.nb_digits x))%Z
             by (apply Z.pow_pos_nonneg; lia)
       end.
  all: nia.
Qed.

(** A number below [10^w] has at most [w] digits, for [w >= 1]. *)
Lemma digits_bound (n : N) (w : nat) :
  (Z.of_N n < 10 ^ Z.of_nat w)%Z → 1 ≤ w →
  String.length (py_str_N n) ≤ w.
Proof.
  intros Hlt Hw. unfold py_str_N. rewrite length_string_of_uint.
  pose proof (DecimalN.Unsigned.of_to n) as Hof.
  pose proof (DecimalN.Unsigned.to_of (N.to_uint n)) as Hto.
  rewrite Hof in Hto.
  destruct (N.to_uint n) as [|d|d|d|d|d|d|d|d|d|d] eqn:Hd.
  { simpl. lia. }
  { (* a leading zero: the number is 0, written "0" *)
    destruct d as [|d|d|d|d|d|d|d|d|d|d]; [simpl; lia|..];
      exfalso;
      rewrite unorm_D0 in Hto;
      match type of Hto with
      | _ = Decimal.unorm ?u =>
          assert (Hnb : Decimal.nb_digits (Decimal.unorm u) ≤ Decimal.nb_digits u)
            by (apply nb_digits_unorm; discriminate);
          rewrite <- Hto in Hnb; simpl in Hnb; lia
      end. }
  all: unfold N.of_uint in Hof; simpl Pos.of_uint in Hof; subst n.
  all: match type of Hlt with
       | context [Pos.of_uint_acc ?x ?a] =>
           pose proof (of_uint_acc_bounds x a) as Hb;
           rewrite N2Z.inj_pos in Hlt;
           simpl Decimal.nb_digits;
           destruct (decide (S (Decimal.nb_digits x) ≤ w)) as [|Hgt]; [done|];
           exfalso;
           assert (10 ^ Z.of_nat w ≤ 10 ^ Z.of_nat (Decimal.nb_digits x))%Z
             by (apply Z.pow_le_mono_r; lia)
       end.
  all: lia.
Qed.

(** The same bound on integers: [0 <= z < 10^w] has at most [w] digits. *)
Lemma digit_count_bound (z w : Z) :
  (1 ≤ w)%Z → (0 ≤ z < 10 ^ w)%Z → (digit_count z ≤ Z.to_N w)%N.
Proof.
  intros Hw [Hnn Hlt]. unfold digit_count.
  assert (String.length (py_str_N (Z.abs_N z)) ≤ Z.to_nat w).
  { apply digits_bound; [|lia].
    rewrite N2Z.inj_abs_N, Z.abs_eq, Z2Nat.id by lia. done. }
  lia.
Qed.

(** The length of a padded number: the width, or what the sign and the
    digits need when that is more; the text is never cut. *)
Lemma zero_padded_length (number : Z) (width : nat) :
  String.length (zero_padded number width)
  = width `max` ((if (number <? 0)%Z then 1 else 0)
                 + String.length (py_str_N (Z.abs_N number))).
Proof.
  unfold zero_padded. destruct (number <? 0)%Z.
  - change ("-" +:+ ?s) with (String "-"%char s). simpl String.length.
    rewrite string_length_app, length_zeros. lia.
  - rewrite string_length_app, length_zeros. lia.
Qed.

Lemma padded_length_spec (number width : Z) :
  (0 ≤ width)%Z →
  N.of_nat (String.length (zero_padded number (Z.to_nat width)))
  = padded_length number width.
Proof.
  intros Hw. rewrite zero_padded_length. unfold padded_length, digit_count.
  destruct (number <? 0)%Z; lia.
Qed.

(** Frame numbers below [10^width] get names of exactly [width]
    characters, for [width >= 1]: whenever the call returns, and it
    does return on an interpreter whose digit limit (if it has one),
    [sys.maxsize] and memory all allow texts of [width] characters. *)
Theorem pad_zeros_fixed_width (py : Interpreter) (number width : Z) :
  (1 ≤ width)%Z →
  (0 ≤ number < 10 ^ width)%Z →
  (∀ text, pad_zeros py number width = Ok text →
           String.length text = Z.to_nat width)
  ∧ ((int_max_str_digits py = 0 ∨ Z.to_N width ≤ int_max_str_digits py)%N →
     (Z.to_N width ≤ maxsize py)%N →
     (Z.to_N width ≤ max_str_len py)%N →
     ∃ text, pad_zeros py number width = Ok text).
Proof.
  intros Hw Hrange.
  pose proof (digit_count_bound number width Hw Hrange) as Hdigits.
  assert (Hneg : (number <? 0)%Z = false) by (apply Z.ltb_ge; lia).
  assert (Hlen : padded_length number width = Z.to_N width).
  { unfold padded_length. rewrite Hneg. lia. }
  split.
  - intros text Hrun. apply pad_zeros_ok in Hrun as (-> & _).
    pose proof (padded_length_spec number width ltac:(lia)) as Hspec.
    rewrite Hlen in Hspec. lia.
  - intros Hlimit Hmax Hmem.
    assert (Hwidth : (digit_count width ≤ Z.to_N width)%N).
    { apply digit_count_bound; [done|]. split; [lia|].
      apply Z.pow_gt_lin_r; lia. }
    assert (Hfits : ∀ z, (digit_count z ≤ Z.to_N width)%N →
                         exceeds_digit_limit py z = false).
    { intros z Hz. unfold exceeds_digit_limit.
      destruct Hlimit as [->|Hlimit]; [done|].
      apply andb_false_iff. right. apply N.ltb_ge. lia. }
    exists (zero_padded number (Z.to_nat width)). unfold pad_zeros.
    rewrite (Hfits width Hwidth), (Hfits number Hdigits).
    rewrite (proj2 (Z.ltb_ge width 0)) by lia.
    rewrite (proj2 (N.ltb_ge _ _) Hmax).
    rewrite Hlen. by rewrite (proj2 (N.ltb_ge _ _) Hmem).
Qed.

(** Frame 7 with the default width, on CPython 3.11. *)
Lemma pad_zeros_fixed_width_witness :
  pad_zeros cpython_3_11 7 3 = Ok "007"
  ∧ String.length "007" = 3.
Proof.
  assert (Hrun : pad_zeros cpython_3_11 7 3 = Ok "007")
    by (vm_compute; reflexivity).
  split; [exact Hrun|].
  refine (proj1 (pad_zeros_fixed_width cpython_3_11 7 3 _ _) "007" Hrun); lia.
Defined.

(** * The example script *)


Section Script_facts.
Context {N : Type} (host : Host) (pathlib : Pathlib).
Context (version_imported : bool) (wrapper_member : string → value).
Context (call_object : value → M (Process N) value).
Context (render_frames : value → string → string → M (Process N) unit).

Local Abbreviation run_main :=
  (main host pathlib version_imported wrapper_member call_object render_frames).






End Script_facts.



(** The sample run: both files exist, and the script ends with status 1
    after printing the error; the extension was never loaded. *)
Example main_sample_run :
  let run := main posix_host sample_pathlib false (λ _, PyNone)
               (λ _ s, (Ok PyNone, s)) (λ _ _ _ s, (Ok tt, s))
               sample_process in
  run.1 = Ok 1%Z
  ∧ stdout run.2 = ["Error: module 'virapy' has no attribute 'Scene'"]
  ∧ stderr run.2 = []
  ∧ _extension_module (virapy run.2) = PyNone
  ∧ trace (virapy run.2) = [].
Proof. repeat split; vm_compute; reflexivity. Qed.

(** * The Conan recipe *)

Example configure_on_windows :
  options (configure (sample_recipe "Windows" (Some "17")))
  = <["tests" := false]> (<["shared" := false]> ∅)
  ∧ settings_compiler_cppstd (configure (sample_recipe "Windows" (Some "17")))
    = Some "20"
  ∧ dependency_options (configure (sample_recipe "Windows" None))
      !! ("gdal", "with_curl") = Some false
  ∧ configure (sample_recipe "Linux" None) = sample_recipe "Linux" None.
Proof. repeat split; vm_compute; reflexivity. Qed.

(** Configuring twice is configuring once: the removal of [fPIC] is
    safe to repeat, the GDAL options are set to the same values, and
    the C++ standard stays at 20. *)
Theorem configure_idempotent (self : ViraConan) :
  configure (configure self) = configure self.
Proof.
  unfold configure. destruct self as [os cppstd opts deps reqs]. cbn.
  destruct (String.eqb os "Windows") eqn:Hos;
    destruct cppstd as [std|]; cbn; rewrite ?Hos; cbn; try done.
  all: f_equal; [by rewrite delete_delete_eq|].
  all: apply map_eq; intros k; rewrite !lookup_insert;
    repeat case_decide; done.
Qed.

(** What [configure] leaves alone: the OS setting and the requirements
    always; every option of the recipe but [fPIC]; every option of a
    dependency other than GDAL; and, off Windows, all options.  On
    Windows [fPIC] is gone and the six GDAL options are off.  The C++
    standard becomes 20 exactly when one was set. *)
Theorem configure_frame (self : ViraConan) :
  settings_os (configure self) = settings_os self
  ∧ requires (configure self) = requires self
  ∧ (∀ k, k ≠ "fPIC" → options (configure self) !! k = options self !! k)
  ∧ (∀ pkg opt, pkg ≠ "gdal" →
       dependency_options (configure self) !! (pkg, opt)
       = dependency_options self !! (pkg, opt))
  ∧ (settings_os self ≠ "Windows" →
     options (configure self) = options self
     ∧ dependency_options (configure self) = dependency_options self)
  ∧ (settings_os self = "Windows" →
     options (configure self) !! "fPIC" = None
     ∧ ∀ opt, opt ∈ ["with_curl"; "with_geos"; "with_arrow"; "with_opencl";
                      "ogr_optional_drivers"; "gdal_optional_drivers"] →
              dependency_options (configure self) !! ("gdal", opt) = Some false)
  ∧ settings_compiler_cppstd (configure self)
    = (λ _, "20") <$> settings_compiler_cppstd self.
Proof.
  unfold configure. destruct self as [os cppstd opts deps reqs]. cbn.
  destruct (String.eqb os "Windows") eqn:Hos.
  - apply String.eqb_eq in Hos. subst os.
    destruct cppstd as [std|]; cbn.
    all: repeat split; try done.
    all: try (intros k Hk; by rewrite lookup_delete_ne).
    all: try (intros pkg opt Hpkg;
              rewrite !lookup_insert_ne by congruence; done).
    all: try by rewrite lookup_delete_eq.
    all: intros opt Hopt;
      repeat (apply elem_of_cons in Hopt as [->|Hopt];
              [rewrite !lookup_insert; repeat case_decide; congruence|]);
      by apply elem_of_nil in Hopt.
  - apply String.eqb_neq in Hos.
    destruct cppstd as [std|]; cbn; repeat split; done.
Qed.

(** [configure] and [requirements] do not get in each other's way:
    they can run in either order, and what is required is the same
    with or without [configure], gtest being required exactly when the
    [tests] option is on. *)
Theorem requirements_commute_with_configure (self : ViraConan) :
  requirements (configure self) = configure (requirements self)
  ∧ requires (requirements (configure self)) = requires (requirements self)
  ∧ requires (requirements self)
    = requires self
      ++ ["assimp/5.4.3"; "cfitsio/4.4.0"; "cspice/0067"; "embree3/3.13.5";
          "fftw/3.3.10"; "gdal/3.10.3"; "glm/1.0.1"; "indicators/2.3";
          "libtiff/4.6.0"; "lz4/1.9.4"; "plog/1.1.10"; "tclap/1.2.5";
          "termcolor/2.0.0"; "onetbb/[>=2021.0]"; "yaml-cpp/0.8.0"]
      ++ (if default false (options self !! "tests")
          then ["gtest/1.16.0"] else []).
Proof.
  unfold configure, requirements.
  destruct self as [os cppstd opts deps reqs]. cbn.
  destruct (String.eqb os "Windows") eqn:Hos;
    destruct cppstd as [std|]; cbn;
    rewrite ?lookup_delete_ne by done; done.
Qed.
